(** * PyPaint: the canvas, stroke input and undo logic of [paint.py]

    The program is a PyQt5 paint application.  Its logic lives in the event
    handlers of two classes: [DrawingArea] (mouse and resize handlers of the
    canvas widget) and [Window] (menu actions: draw mode, open, undo, clear,
    and the resize handler of the main window).

    Python attributes hold references to objects, and [QImage] objects are
    mutated in place by [fill], [loadFromData] and by a [QPainter] opened on
    them.  The model therefore keeps a store of image objects and lets the
    three attributes [image], [resizeSavedImage] and [savedImage] be
    references into it, so that two attributes bound to one object see each
    other's mutations. *)

From Stdlib Require Import ZArith Bool String List Lia.
From stdpp Require Import base list.

Local Open Scope Z_scope.

(** ** The part of Qt the handlers call *)

Module Qt.

(** [Qt.MouseButton], with the flag value of each member. *)
Inductive MouseButton := NoButton | LeftButton | RightButton | MiddleButton.

Definition MouseButton_value (b : MouseButton) : Z :=
  match b with
  | NoButton => 0
  | LeftButton => 1
  | RightButton => 2
  | MiddleButton => 4
  end.

Definition MouseButton_eqb (a b : MouseButton) : bool :=
  MouseButton_value a =? MouseButton_value b.

Inductive PenStyle := SolidLine | DashLine | DotLine.
Inductive PenCapStyle := FlatCap | SquareCap | RoundCap.
Inductive PenJoinStyle := MiterJoin | BevelJoin | RoundJoin.

(** Colours are [QRgb] words, [0xAARRGGBB]. *)
Definition QRgb := Z.
Definition white : QRgb := 0xffffffff.
Definition black : QRgb := 0xff000000.

Record QPoint := mkQPoint { px : Z; py : Z }.

(** [QPoint()]: the default-constructed point is the origin. *)
Definition QPoint_null : QPoint := mkQPoint 0 0.

(** [QPoint.__eq__] compares coordinates. *)
Definition QPoint_eqb (a b : QPoint) : bool :=
  (px a =? px b) && (py a =? py b).

Record QPen := mkQPen {
  pen_color : QRgb;
  pen_width : Z;
  pen_style : PenStyle;
  pen_cap : PenCapStyle;
  pen_join : PenJoinStyle
}.

(** A [QImage] in [Format_RGB32]: its size and its pixels, row by row.
    The null image has no data, and reports width and height 0. *)
Record QImage := mkQImage {
  width : Z;
  height : Z;
  pixels : list QRgb
}.

Definition QImage_null : QImage := mkQImage 0 0 [].

Definition isNull (img : QImage) : bool := width img =? 0.

(** [QImage(w, h, Format_RGB32)]: no data is allocated for an empty size;
    otherwise the pixel data is uninitialised (here: zero) until filled. *)
Definition QImage_new (w h : Z) : QImage :=
  if (w <=? 0) || (h <=? 0) then QImage_null
  else mkQImage w h (replicate (Z.to_nat (w * h)) 0).

(** [img.fill(c)] sets every pixel of the image. *)
Definition fill (c : QRgb) (img : QImage) : QImage :=
  mkQImage (width img) (height img) (map (fun _ => c) (pixels img)).

(** The algorithms of the toolkit that the program relies on but that are
    no part of it: the image decoders, the resampler and the raster paint
    engine.  The handlers are defined over any implementation of them. *)
Class Engine := {
  (** [QImage.fromData]: the decoded image, or the null image when the
      bytes are no supported image. *)
  fromData : list Byte.byte -> QImage;
  (** resampling of a non-null image to another, non-empty, size *)
  transformed : QImage -> Z -> Z -> QImage;
  (** what [QPainter.drawPoint] and [QPainter.drawLine] make of the pixels
      of a non-null image under a given pen *)
  drawPoint : QPen -> QPoint -> QImage -> QImage;
  drawLine : QPen -> QPoint -> QPoint -> QImage -> QImage
}.

(** [img.scaled(w, h, IgnoreAspectRatio)] returns a new image: the null
    image for a null source or an empty target size, a copy of the source
    when the size is the same, and the resampled source otherwise. *)
Definition scaled `{Engine} (img : QImage) (w h : Z) : QImage :=
  if isNull img then QImage_null
  else if (w <=? 0) || (h <=? 0) then QImage_null
  else if (w =? width img) && (h =? height img) then img
  else transformed img w h.

(** [img.loadFromData(content)] assigns the decoded image to the object
    it is called on and returns whether that succeeded; a failed load
    invalidates the image, which is the null image from then on. *)
Definition loadFromData `{Engine} (content : list Byte.byte) (img : QImage)
  : QImage * bool :=
  let loaded := fromData content in (loaded, negb (isNull loaded)).

(** A [QPainter] opened on a null image is inactive and paints nothing. *)
Definition paint (op : QImage -> QImage) (img : QImage) : QImage :=
  if isNull img then img else op img.

End Qt.

(** ** Python values and outcomes *)

(** The values the handlers compare with [==].  [event.button()] is a
    [Qt.MouseButton]; [event.button] without the call is a bound method. *)
Inductive PyValue :=
| PyMouseButton (b : Qt.MouseButton)
| PyBoundMethod (name : string).

(** [a == b]: enum members compare by value, bound methods with bound
    methods, and values of unrelated types are unequal. *)
Definition py_eq (a b : PyValue) : bool :=
  match a, b with
  | PyMouseButton x, PyMouseButton y => Qt.MouseButton_eqb x y
  | PyBoundMethod n, PyBoundMethod m => String.eqb n m
  | _, _ => false
  end.

(** How a handler ends: it returns, or an exception leaves it. *)
Inductive Outcome :=
| Returned
| Raised (exn : string).

Inductive DrawMode := Point | Line.

Definition DrawMode_eqb (a b : DrawMode) : bool :=
  match a, b with
  | Point, Point | Line, Line => true
  | _, _ => false
  end.


(** ** The state of the drawing area *)

(** The attributes of a [DrawingArea] instance.  [store] holds the image
    objects; [image], [resizeSavedImage] and [savedImage] are references to
    objects of the store.  [width] and [height] are the widget's geometry,
    which the toolkit sets and [self.width()], [self.height()] read. *)
Record DrawingArea := mkDrawingArea {
  store : list Qt.QImage;
  image : nat;
  resizeSavedImage : nat;
  savedImage : nat;
  drawing : bool;
  brushSize : Z;
  brushColor : Qt.QRgb;
  brushStyle : Qt.PenStyle;
  brushCap : Qt.PenCapStyle;
  brushJoin : Qt.PenJoinStyle;
  drawMode : DrawMode;
  lastPoint : Qt.QPoint;
  width : Z;
  height : Z
}.

Definition set_store (v : list Qt.QImage) (s : DrawingArea) : DrawingArea :=
  mkDrawingArea v (image s) (resizeSavedImage s) (savedImage s) (drawing s)
    (brushSize s) (brushColor s) (brushStyle s) (brushCap s) (brushJoin s)
    (drawMode s) (lastPoint s) (width s) (height s).

Definition set_image (v : nat) (s : DrawingArea) : DrawingArea :=
  mkDrawingArea (store s) v (resizeSavedImage s) (savedImage s) (drawing s)
    (brushSize s) (brushColor s) (brushStyle s) (brushCap s) (brushJoin s)
    (drawMode s) (lastPoint s) (width s) (height s).

Definition set_resizeSavedImage (v : nat) (s : DrawingArea) : DrawingArea :=
  mkDrawingArea (store s) (image s) v (savedImage s) (drawing s)
    (brushSize s) (brushColor s) (brushStyle s) (brushCap s) (brushJoin s)
    (drawMode s) (lastPoint s) (width s) (height s).

Definition set_savedImage (v : nat) (s : DrawingArea) : DrawingArea :=
  mkDrawingArea (store s) (image s) (resizeSavedImage s) v (drawing s)
    (brushSize s) (brushColor s) (brushStyle s) (brushCap s) (brushJoin s)
    (drawMode s) (lastPoint s) (width s) (height s).

Definition set_drawing (v : bool) (s : DrawingArea) : DrawingArea :=
  mkDrawingArea (store s) (image s) (resizeSavedImage s) (savedImage s) v
    (brushSize s) (brushColor s) (brushStyle s) (brushCap s) (brushJoin s)
    (drawMode s) (lastPoint s) (width s) (height s).

Definition set_brushSize (v : Z) (s : DrawingArea) : DrawingArea :=
  mkDrawingArea (store s) (image s) (resizeSavedImage s) (savedImage s)
    (drawing s) v (brushColor s) (brushStyle s) (brushCap s) (brushJoin s)
    (drawMode s) (lastPoint s) (width s) (height s).

Definition set_brushColor (v : Qt.QRgb) (s : DrawingArea) : DrawingArea :=
  mkDrawingArea (store s) (image s) (resizeSavedImage s) (savedImage s)
    (drawing s) (brushSize s) v (brushStyle s) (brushCap s) (brushJoin s)
    (drawMode s) (lastPoint s) (width s) (height s).

Definition set_brushStyle (v : Qt.PenStyle) (s : DrawingArea) : DrawingArea :=
  mkDrawingArea (store s) (image s) (resizeSavedImage s) (savedImage s)
    (drawing s) (brushSize s) (brushColor s) v (brushCap s) (brushJoin s)
    (drawMode s) (lastPoint s) (width s) (height s).

Definition set_brushCap (v : Qt.PenCapStyle) (s : DrawingArea) : DrawingArea :=
  mkDrawingArea (store s) (image s) (resizeSavedImage s) (savedImage s)
    (drawing s) (brushSize s) (brushColor s) (brushStyle s) v (brushJoin s)
    (drawMode s) (lastPoint s) (width s) (height s).

Definition set_brushJoin (v : Qt.PenJoinStyle) (s : DrawingArea) : DrawingArea :=
  mkDrawingArea (store s) (image s) (resizeSavedImage s) (savedImage s)
    (drawing s) (brushSize s) (brushColor s) (brushStyle s) (brushCap s) v
    (drawMode s) (lastPoint s) (width s) (height s).

Definition set_drawMode (v : DrawMode) (s : DrawingArea) : DrawingArea :=
  mkDrawingArea (store s) (image s) (resizeSavedImage s) (savedImage s)
    (drawing s) (brushSize s) (brushColor s) (brushStyle s) (brushCap s)
    (brushJoin s) v (lastPoint s) (width s) (height s).

Definition set_lastPoint (v : Qt.QPoint) (s : DrawingArea) : DrawingArea :=
  mkDrawingArea (store s) (image s) (resizeSavedImage s) (savedImage s)
    (drawing s) (brushSize s) (brushColor s) (brushStyle s) (brushCap s)
    (brushJoin s) (drawMode s) v (width s) (height s).

(** The toolkit gives the widget a new geometry before it delivers the
    resize event. *)
Definition setGeometry (w h : Z) (s : DrawingArea) : DrawingArea :=
  mkDrawingArea (store s) (image s) (resizeSavedImage s) (savedImage s)
    (drawing s) (brushSize s) (brushColor s) (brushStyle s) (brushCap s)
    (brushJoin s) (drawMode s) (lastPoint s) w h.

(** *** Objects *)

(** The object a reference points to. *)
Definition deref (st : list Qt.QImage) (r : nat) : Qt.QImage :=
  default Qt.QImage_null (st !! r).

(** A method that mutates the object behind [r] in place. *)
Definition mutate (r : nat) (f : Qt.QImage -> Qt.QImage) (s : DrawingArea)
  : DrawingArea :=
  set_store (alter f r (store s)) s.

(** A call that returns a new image object: the reference to it, and the
    state with the object in the store. *)
Definition new_object (img : Qt.QImage) (s : DrawingArea) : nat * DrawingArea :=
  (length (store s), set_store (store s ++ [img]) s).

(** The pixel content behind each of the three attributes. *)
Definition live (s : DrawingArea) : Qt.QImage := deref (store s) (image s).
Definition undoSnapshot (s : DrawingArea) : Qt.QImage :=
  deref (store s) (savedImage s).
Definition resizeSnapshot (s : DrawingArea) : Qt.QImage :=
  deref (store s) (resizeSavedImage s).

(** [QPen(self.brushColor, self.brushSize, self.brushStyle, self.brushCap,
    self.brushJoin)] *)
Definition pen (s : DrawingArea) : Qt.QPen :=
  Qt.mkQPen (brushColor s) (brushSize s) (brushStyle s) (brushCap s)
    (brushJoin s).

(** [DrawingArea.__init__], for a widget whose geometry is [w] by [h]: two
    empty images for resizing and undo, a white image of the widget's size,
    and the default settings. *)
Definition DrawingArea_init (w h : Z) : DrawingArea :=
  {| store := [Qt.QImage_new 0 0; Qt.QImage_new 0 0;
               Qt.fill Qt.white (Qt.QImage_new w h)];
     resizeSavedImage := 0%nat;
     savedImage := 1%nat;
     image := 2%nat;
     drawing := false;
     brushSize := 1;
     brushColor := Qt.black;
     brushStyle := Qt.SolidLine;
     brushCap := Qt.RoundCap;
     brushJoin := Qt.RoundJoin;
     drawMode := Point;
     lastPoint := Qt.QPoint_null;
     width := w;
     height := h |}.

(** A mouse event: the button that caused it, the buttons held while it
    happened (a set of [Qt.MouseButton] flags) and the cursor position. *)
Record QMouseEvent := mkQMouseEvent {
  button : Qt.MouseButton;
  buttons : Z;
  pos : Qt.QPoint
}.

(** ** The event handlers

    Each handler is a function on the attributes of the drawing area.  The
    statements that only concern the widgets (the check marks of the menu,
    the label of the slider, the style sheet of the colour button) and the
    calls of [update()], which ask the toolkit for a repaint from [image]
    and assign nothing, have no counterpart here. *)

Section Handlers.

Context `{engine : Qt.Engine}.

(** *** class DrawingArea *)

(** [DrawingArea.resizeEvent]: the image is replaced by a scaled copy of
    itself. *)
Definition DrawingArea_resizeEvent (s : DrawingArea) : DrawingArea :=
  let (r, s1) := new_object (Qt.scaled (live s) (width s) (height s)) s in
  set_image r s1.

(** [DrawingArea.mousePressEvent] *)
Definition mousePressEvent (event : QMouseEvent) (s : DrawingArea)
  : DrawingArea :=
  if py_eq (PyMouseButton (button event)) (PyMouseButton Qt.LeftButton) then
    match drawMode s with
    | Point =>
        let s1 := mutate (image s)
                    (Qt.paint (Qt.drawPoint (pen s) (pos event))) s in
        let s2 := set_drawing true s1 in
        set_lastPoint (pos event) s2
    | Line =>
        if Qt.QPoint_eqb (lastPoint s) Qt.QPoint_null then
          set_lastPoint (pos event) s
        else
          let s1 := mutate (image s)
                      (Qt.paint (Qt.drawLine (pen s) (lastPoint s) (pos event)))
                      s in
          set_lastPoint Qt.QPoint_null s1
    end
  else s.

(** The condition of [DrawingArea.mouseMoveEvent]:
    [(event.buttons() & Qt.LeftButton) & self.drawing &
     (self.drawMode == DrawMode.Point)], a bitwise conjunction in which the
    two booleans count as 1 and 0, taken as true when it is not zero. *)
Definition moveCondition (event : QMouseEvent) (s : DrawingArea) : bool :=
  negb (Z.land
          (Z.land (Z.land (buttons event)
                          (Qt.MouseButton_value Qt.LeftButton))
                  (Z.b2z (drawing s)))
          (Z.b2z (DrawMode_eqb (drawMode s) Point)) =? 0).

(** [DrawingArea.mouseMoveEvent] *)
Definition mouseMoveEvent (event : QMouseEvent) (s : DrawingArea)
  : DrawingArea :=
  if moveCondition event s then
    let s1 := mutate (image s)
                (Qt.paint (Qt.drawLine (pen s) (lastPoint s) (pos event))) s in
    set_lastPoint (pos event) s1
  else s.

(** [DrawingArea.mouseReleaseEvent].  The condition compares the bound
    method [event.button], which the handler does not call, with
    [Qt.LeftButton]. *)
Definition mouseReleaseEvent (event : QMouseEvent) (s : DrawingArea)
  : DrawingArea :=
  if py_eq (PyBoundMethod "button") (PyMouseButton Qt.LeftButton) then
    let s1 := set_savedImage (resizeSavedImage s) s in
    let s2 := set_resizeSavedImage (image s1) s1 in
    set_drawing false s2
  else s.

(** *** class Window, on its [imageArea] *)

(** [Window.changeDrawMode], on the text of the action that triggered it. *)
Definition changeDrawMode (text : string) (s : DrawingArea) : DrawingArea :=
  let s1 :=
    if String.eqb text "Point" then set_drawMode Point s
    else if String.eqb text "Line" then set_drawMode Line s
    else s in
  set_lastPoint Qt.QPoint_null s1.

(** [Window.changeBrushJoin], on the text and the checked state of the
    radio button. *)
Definition changeBrushJoin (text : string) (checked : bool) (s : DrawingArea)
  : DrawingArea :=
  let s1 := if String.eqb text "Round" && checked
            then set_brushJoin Qt.RoundJoin s else s in
  let s2 := if String.eqb text "Miter" && checked
            then set_brushJoin Qt.MiterJoin s1 else s1 in
  if String.eqb text "Bevel" && checked
  then set_brushJoin Qt.BevelJoin s2 else s2.

(** [Window.changeBrushCap] *)
Definition changeBrushCap (text : string) (checked : bool) (s : DrawingArea)
  : DrawingArea :=
  let s1 := if String.eqb text "Square" && checked
            then set_brushCap Qt.SquareCap s else s in
  let s2 := if String.eqb text "Flat" && checked
            then set_brushCap Qt.FlatCap s1 else s1 in
  if String.eqb text "Round" && checked
  then set_brushCap Qt.RoundCap s2 else s2.

(** [Window.changeBrushStyle] *)
Definition changeBrushStyle (text : string) (checked : bool) (s : DrawingArea)
  : DrawingArea :=
  let s1 := if String.eqb text " Solid" && checked
            then set_brushStyle Qt.SolidLine s else s in
  let s2 := if String.eqb text " Dash" && checked
            then set_brushStyle Qt.DashLine s1 else s1 in
  if String.eqb text " Dot" && checked
  then set_brushStyle Qt.DotLine s2 else s2.

(** [Window.sizeSliderChange] *)
Definition sizeSliderChange (value : Z) (s : DrawingArea) : DrawingArea :=
  set_brushSize value s.

(** [Window.showColorDialog], on the colour the dialog returns; [None] is
    the invalid colour of a cancelled dialog. *)
Definition showColorDialog (col : option Qt.QRgb) (s : DrawingArea)
  : DrawingArea :=
  match col with
  | Some c => set_brushColor c s
  | None => s
  end.

(** [Window.resizeEvent]: when [resizeSavedImage] has a width, the image is
    replaced by a scaled copy of it. *)
Definition Window_resizeEvent (s : DrawingArea) : DrawingArea :=
  if negb (Qt.width (resizeSnapshot s) =? 0) then
    let (r, s1) :=
      new_object (Qt.scaled (resizeSnapshot s) (width s) (height s)) s in
    set_image r s1
  else s.

(** [Window.open], on the path the file dialog returns and on what reading
    that file gives; [None] is a file that cannot be read, for which the
    built-in [open] raises. *)
Definition Window_open (filePath : string) (file : option (list Byte.byte))
    (s : DrawingArea) : Outcome * DrawingArea :=
  if String.eqb filePath EmptyString then (Returned, s)
  else
    match file with
    | None => (Raised "OSError", s)
    | Some content =>
        let s1 := mutate (image s)
                    (fun img => fst (Qt.loadFromData content img)) s in
        let (r, s2) :=
          new_object (Qt.scaled (live s1) (width s1) (height s1)) s1 in
        let s3 := set_image r s2 in
        let s4 := set_resizeSavedImage (image s3) s3 in
        (Returned, s4)
    end.

(** [Window.undo] *)
Definition Window_undo (s : DrawingArea) : DrawingArea :=
  let copyImage := image s in
  let s3 :=
    if negb (Qt.width (undoSnapshot s) =? 0) then
      let (r, s1) :=
        new_object (Qt.scaled (undoSnapshot s) (width s) (height s)) s in
      set_image r s1
    else
      let (r, s1) := new_object (Qt.QImage_new (width s) (height s)) s in
      let s2 := set_image r s1 in
      mutate (image s2) (Qt.fill Qt.white) s2 in
  set_savedImage copyImage s3.

(** [Window.clear] *)
Definition Window_clear (s : DrawingArea) : DrawingArea :=
  mutate (image s) (Qt.fill Qt.white) s.

(** *** Runs *)

(** What the event loop can deliver to the handlers above. *)
Inductive Event :=
| Resize (w h : Z)
| WindowResize
| MousePress (event : QMouseEvent)
| MouseMove (event : QMouseEvent)
| MouseRelease (event : QMouseEvent)
| ChangeDrawMode (text : string)
| ChangeBrushJoin (text : string) (checked : bool)
| ChangeBrushCap (text : string) (checked : bool)
| ChangeBrushStyle (text : string) (checked : bool)
| SizeSliderChange (value : Z)
| ShowColorDialog (col : option Qt.QRgb)
| Open (filePath : string) (file : option (list Byte.byte))
| Undo
| Clear.

(** The state in which a handler leaves the drawing area.  For an open
    this is the state at the point where the handler returns or raises;
    what becomes of the exception outside the handler is no part of the
    model, so that the states of the runs below include every state the
    program reaches. *)
Definition step (e : Event) (s : DrawingArea) : DrawingArea :=
  match e with
  | Resize w h => DrawingArea_resizeEvent (setGeometry w h s)
  | WindowResize => Window_resizeEvent s
  | MousePress event => mousePressEvent event s
  | MouseMove event => mouseMoveEvent event s
  | MouseRelease event => mouseReleaseEvent event s
  | ChangeDrawMode text => changeDrawMode text s
  | ChangeBrushJoin text checked => changeBrushJoin text checked s
  | ChangeBrushCap text checked => changeBrushCap text checked s
  | ChangeBrushStyle text checked => changeBrushStyle text checked s
  | SizeSliderChange value => sizeSliderChange value s
  | ShowColorDialog col => showColorDialog col s
  | Open filePath file => snd (Window_open filePath file s)
  | Undo => Window_undo s
  | Clear => Window_clear s
  end.

Fixpoint run (events : list Event) (s : DrawingArea) : DrawingArea :=
  match events with
  | [] => s
  | e :: rest => run rest (step e s)
  end.

End Handlers.

(** ** A small engine to run the handlers on

    The simplest implementation of the toolkit's algorithms: a byte format
    that gives the width, the height and then one grey level per pixel,
    nearest-neighbour resampling, and a one-pixel pen that ignores width,
    style, cap and join.  The examples below are computed with it. *)

Module Simple.

Definition grey (b : Byte.byte) : Qt.QRgb :=
  let g := Z.of_N (Byte.to_N b) in
  Z.lor Qt.black (Z.lor (Z.shiftl g 16) (Z.lor (Z.shiftl g 8) g)).

Definition fromData (content : list Byte.byte) : Qt.QImage :=
  match content with
  | bw :: bh :: data =>
      let w := Z.of_N (Byte.to_N bw) in
      let h := Z.of_N (Byte.to_N bh) in
      if (0 <? w) && (0 <? h) && (Z.of_nat (length data) =? w * h)
      then Qt.mkQImage w h (map grey data)
      else Qt.QImage_null
  | _ => Qt.QImage_null
  end.

Definition pixelAt (img : Qt.QImage) (x y : Z) : Qt.QRgb :=
  nth (Z.to_nat (y * Qt.width img + x)) (Qt.pixels img) 0.

Definition transformed (img : Qt.QImage) (w h : Z) : Qt.QImage :=
  Qt.mkQImage w h
    (flat_map
       (fun y =>
          map (fun x => pixelAt img (Z.of_nat x * Qt.width img / w)
                                    (Z.of_nat y * Qt.height img / h))
              (seq 0 (Z.to_nat w)))
       (seq 0 (Z.to_nat h))).

Definition setPixel (c : Qt.QRgb) (p : Qt.QPoint) (img : Qt.QImage) : Qt.QImage :=
  if (0 <=? Qt.px p) && (Qt.px p <? Qt.width img)
     && (0 <=? Qt.py p) && (Qt.py p <? Qt.height img)
  then Qt.mkQImage (Qt.width img) (Qt.height img)
         (<[Z.to_nat (Qt.py p * Qt.width img + Qt.px p) := c]> (Qt.pixels img))
  else img.

Definition drawPoint (pen : Qt.QPen) (p : Qt.QPoint) (img : Qt.QImage)
  : Qt.QImage :=
  setPixel (Qt.pen_color pen) p img.

Definition drawLine (pen : Qt.QPen) (a b : Qt.QPoint) (img : Qt.QImage)
  : Qt.QImage :=
  let dx := Qt.px b - Qt.px a in
  let dy := Qt.py b - Qt.py a in
  let n := Z.max 1 (Z.max (Z.abs dx) (Z.abs dy)) in
  fold_left
    (fun acc k =>
       setPixel (Qt.pen_color pen)
         (Qt.mkQPoint (Qt.px a + Z.of_nat k * dx / n)
                      (Qt.py a + Z.of_nat k * dy / n)) acc)
    (seq 0 (S (Z.to_nat n))) img.

Definition engine : Qt.Engine :=
  {| Qt.fromData := fromData;
     Qt.transformed := transformed;
     Qt.drawPoint := drawPoint;
     Qt.drawLine := drawLine |}.

(** A press of the left button, or a move with it held, at a position;
    and its release, after which no button is held. *)
Definition leftAt (x y : Z) : QMouseEvent :=
  mkQMouseEvent Qt.LeftButton (Qt.MouseButton_value Qt.LeftButton)
    (Qt.mkQPoint x y).
Definition leftUp (x y : Z) : QMouseEvent :=
  mkQMouseEvent Qt.LeftButton (Qt.MouseButton_value Qt.NoButton)
    (Qt.mkQPoint x y).

(** A 2 by 2 picture, black in the top left corner and white elsewhere, in
    the byte format of [fromData]; and a byte string that is no picture. *)
Definition picture : list Byte.byte :=
  [Byte.x02; Byte.x02; Byte.x00; Byte.xff; Byte.xff; Byte.xff].
Definition garbage : list Byte.byte := [Byte.x02; Byte.x02; Byte.x00].

End Simple.


(** ** The stroke machine read off the attributes

    The three states of the stroke input machine, as the handlers encode
    them: in Point mode a stroke is in progress while the [drawing] flag is
    set, which is what lets [mouseMoveEvent] draw; in Line mode an anchor is
    pending while [lastPoint] is not the null point, which is what lets
    [mousePressEvent] draw. *)

Inductive StrokeState := Idle | PointDrawing | LinePending.

Definition strokeState (s : DrawingArea) : StrokeState :=
  match drawMode s with
  | Point => if drawing s then PointDrawing else Idle
  | Line =>
      if Qt.QPoint_eqb (lastPoint s) Qt.QPoint_null then Idle else LinePending
  end.

(** The references of a state are in use, and the undo snapshot is another
    object than the live image. *)
Definition wf (s : DrawingArea) : Prop :=
  (image s < length (store s))%nat /\
  (resizeSavedImage s < length (store s))%nat /\
  (savedImage s < length (store s))%nat /\
  savedImage s <> image s.

(** A stroke as the mouse delivers it: a press, the moves made with the
    button held, and the release. *)
Definition stroke (press : QMouseEvent) (moves : list QMouseEvent)
    (release : QMouseEvent) : list Event :=
  MousePress press :: map MouseMove moves ++ [MouseRelease release].

(** The events that come from the mouse. *)
Definition isMouse (e : Event) : bool :=
  match e with
  | MousePress _ | MouseMove _ | MouseRelease _ => true
  | _ => false
  end.

(** The text of the menu action of each draw mode. *)
Definition modeText (m : DrawMode) : string :=
  match m with
  | Point => "Point"
  | Line => "Line"
  end.

(** ** Sessions run on the small engine *)

Module Session.

Import Simple.

Definition run := @run engine.

(** A fresh 3 by 3 canvas, and two one-click strokes on it. *)
Definition canvas : DrawingArea := DrawingArea_init 3 3.
Definition strokeA : list Event := stroke (leftAt 0 0) [] (leftUp 0 0).
Definition strokeB : list Event := stroke (leftAt 2 2) [] (leftUp 2 2).
Definition afterA : DrawingArea := run strokeA canvas.
Definition afterB : DrawingArea := run strokeB afterA.

(** The canvas with the button still down on the first click. *)
Definition midStroke : DrawingArea := run [MousePress (leftAt 0 0)] canvas.

(** A 2 by 2 canvas on which the picture was opened. *)
Definition opened : DrawingArea :=
  run [Open "picture.png" (Some picture)] (DrawingArea_init 2 2).

(** The same, after an undo and a click in the bottom right corner. *)
Definition openedUndoneDrawn : DrawingArea :=
  run [Undo; MousePress (leftAt 1 1)] opened.

(** After stroke A, an undo and stroke B: the undo snapshot holds the
    canvas with stroke A. *)
Definition undoneEvents : list Event := strokeA ++ Undo :: strokeB.
Definition undone : DrawingArea := run undoneEvents canvas.

(** After stroke A, an open of bytes that do not decode. *)
Definition emptiedEvents : list Event :=
  strokeA ++ [Open "picture.png" (Some garbage)].
Definition emptied : DrawingArea := run emptiedEvents canvas.

(** A stroke in Point mode, then Line mode with a first click at (2,2). *)
Definition anchored : DrawingArea :=
  run (strokeA ++ [ChangeDrawMode "Line"; MousePress (leftAt 2 2)]) canvas.

End Session.

(** The events that change a brush setting, the events of the Open action
    and those of the Undo action. *)
Definition isBrush (e : Event) : bool :=
  match e with
  | ChangeBrushJoin _ _ | ChangeBrushCap _ _ | ChangeBrushStyle _ _
  | SizeSliderChange _ | ShowColorDialog _ => true
  | _ => false
  end.

Definition isOpen (e : Event) : bool :=
  match e with
  | Open _ _ => true
  | _ => false
  end.

Definition isUndo (e : Event) : bool :=
  match e with
  | Undo => true
  | _ => false
  end.

(** Whether the left button is among the buttons held during an event:
    bit 0 of the flags. *)
Definition leftHeld (event : QMouseEvent) : bool :=
  Z.testbit (buttons event) 0.

Ltac open_state s :=
  destruct s as [st im rs sv dr bsz bcol bsty bcap bjoin dm lp gw gh].

(** ** Objects and references *)

Lemma deref_app_new (st : list Qt.QImage) (img : Qt.QImage) :
  deref (st ++ [img]) (length st) = img.
Proof.
  unfold deref. now rewrite list_lookup_middle.
Qed.

Lemma deref_app_old (st : list Qt.QImage) (img : Qt.QImage) (r : nat) :
  (r < length st)%nat -> deref (st ++ [img]) r = deref st r.
Proof.
  intros Hr. unfold deref. now rewrite lookup_app_l.
Qed.

Lemma deref_alter (f : Qt.QImage -> Qt.QImage) (st : list Qt.QImage) (r : nat) :
  (r < length st)%nat \/ f Qt.QImage_null = Qt.QImage_null ->
  deref (alter f r st) r = f (deref st r).
Proof.
  intros Hr. unfold deref. rewrite list_lookup_alter_eq.
  destruct (st !! r) as [img|] eqn:E; simpl; [reflexivity|].
  destruct Hr as [Hr|Hf]; [|now rewrite Hf].
  apply lookup_ge_None in E. lia.
Qed.

Lemma deref_alter_ne (f : Qt.QImage -> Qt.QImage) (st : list Qt.QImage)
    (r r' : nat) :
  r <> r' -> deref (alter f r st) r' = deref st r'.
Proof.
  intros Hne. unfold deref. now rewrite list_lookup_alter_ne.
Qed.

Lemma paint_null (op : Qt.QImage -> Qt.QImage) :
  Qt.paint op Qt.QImage_null = Qt.QImage_null.
Proof. reflexivity. Qed.

Lemma fill_null (c : Qt.QRgb) : Qt.fill c Qt.QImage_null = Qt.QImage_null.
Proof. reflexivity. Qed.

Lemma fill_pixels (c : Qt.QRgb) (img : Qt.QImage) :
  Forall (fun p => p = c) (Qt.pixels (Qt.fill c img)).
Proof.
  unfold Qt.fill; simpl. induction (Qt.pixels img); simpl; constructor; auto.
Qed.

Lemma QPoint_eqb_eq (a b : Qt.QPoint) :
  Qt.QPoint_eqb a b = true <-> a = b.
Proof.
  destruct a as [ax ay], b as [bx b_y]. unfold Qt.QPoint_eqb; simpl.
  rewrite andb_true_iff, !Z.eqb_eq. split.
  - intros [-> ->]. reflexivity.
  - intros E. injection E. auto.
Qed.


(** ** The handlers, one by one *)

Section Properties.

Context `{engine : Qt.Engine}.

(** The release handler changes nothing, whatever the event: its condition
    compares a method object with a button. *)
Lemma mouseReleaseEvent_id (event : QMouseEvent) (s : DrawingArea) :
  mouseReleaseEvent event s = s.
Proof. reflexivity. Qed.

(** C1: for a release of the left button in the PointDrawing state, the
    handler is expected to move the two snapshot slots on and to clear the
    drawing flag.  The handler as written leaves the state as it is: the
    machine stays in PointDrawing, the flag stays set and neither
    [savedImage] nor [resizeSavedImage] is assigned. *)
Theorem C1_release_commits_nothing (event : QMouseEvent) (s : DrawingArea) :
  button event = Qt.LeftButton ->
  strokeState s = PointDrawing ->
  let s' := mouseReleaseEvent event s in
  s' = s /\ strokeState s' = PointDrawing /\ drawing s' = true /\
  savedImage s' = savedImage s /\ resizeSavedImage s' = resizeSavedImage s.
Proof.
  intros _ Hstate s'. subst s'. rewrite mouseReleaseEvent_id.
  repeat split; try assumption.
  unfold strokeState in Hstate.
  destruct (drawMode s), (drawing s); try discriminate; try reflexivity.
  destruct (Qt.QPoint_eqb _ _); discriminate.
Qed.

(** In Line mode a left press away from the origin, with no anchor pending,
    draws nothing and records the anchor. *)
Lemma line_first_press (event : QMouseEvent) (s : DrawingArea) :
  button event = Qt.LeftButton ->
  drawMode s = Line ->
  lastPoint s = Qt.QPoint_null ->
  pos event <> Qt.QPoint_null ->
  let s' := mousePressEvent event s in
  store s' = store s /\ lastPoint s' = pos event /\
  strokeState s' = LinePending.
Proof.
  intros Hb Hm Hl Hp s'. subst s'. unfold mousePressEvent.
  rewrite Hb, Hm, Hl. simpl. unfold strokeState. simpl. rewrite Hm.
  destruct (Qt.QPoint_eqb (pos event) Qt.QPoint_null) eqn:E.
  - apply QPoint_eqb_eq in E. contradiction.
  - auto.
Qed.

(** With an anchor pending, the next left press draws the line from the
    anchor to the press and clears the anchor. *)
Lemma line_second_press (event : QMouseEvent) (s : DrawingArea) :
  button event = Qt.LeftButton ->
  drawMode s = Line ->
  lastPoint s <> Qt.QPoint_null ->
  let s' := mousePressEvent event s in
  live s' = Qt.paint (Qt.drawLine (pen s) (lastPoint s) (pos event)) (live s) /\
  lastPoint s' = Qt.QPoint_null /\ strokeState s' = Idle.
Proof.
  intros Hb Hm Hl s'. subst s'. unfold mousePressEvent.
  rewrite Hb, Hm. simpl.
  destruct (Qt.QPoint_eqb (lastPoint s) Qt.QPoint_null) eqn:E.
  - apply QPoint_eqb_eq in E. contradiction.
  - unfold strokeState, live. simpl. rewrite Hm. simpl. split; [|auto].
    apply deref_alter. right. apply paint_null.
Qed.

(** C4: in Line mode on a fresh canvas, a press at (0,0) is expected to
    become the pending anchor, and the next press at (50,0) to draw the
    line between the two.  The handler records the anchor (0,0) as the null
    point, which is its mark for no anchor: the first press leaves the
    state as it was, and the second press draws nothing and is itself taken
    as the first point of a line. *)
Theorem C4_line_from_origin_is_lost (w h b1 b2 : Z) :
  let s0 := changeDrawMode "Line" (DrawingArea_init w h) in
  let s1 := mousePressEvent (mkQMouseEvent Qt.LeftButton b1 (Qt.mkQPoint 0 0)) s0 in
  let s2 := mousePressEvent (mkQMouseEvent Qt.LeftButton b2 (Qt.mkQPoint 50 0)) s1 in
  s1 = s0 /\ strokeState s1 = Idle /\
  store s2 = store s0 /\ live s2 = live s0 /\
  lastPoint s2 = Qt.mkQPoint 50 0 /\ strokeState s2 = LinePending.
Proof.
  repeat split.
Qed.

(** *** Undo *)

Lemma undo_refs (s : DrawingArea) :
  savedImage (Window_undo s) = image s /\
  image (Window_undo s) = length (store s) /\
  resizeSavedImage (Window_undo s) = resizeSavedImage s /\
  width (Window_undo s) = width s /\ height (Window_undo s) = height s.
Proof.
  open_state s. unfold Window_undo, undoSnapshot. cbn.
  destruct (negb _); cbn; auto.
Qed.

(** What undo shows: the undo snapshot scaled to the widget, or a white
    image of the widget's size when the snapshot has no width. *)
Lemma undo_live (s : DrawingArea) :
  live (Window_undo s) =
  if negb (Qt.width (undoSnapshot s) =? 0)
  then Qt.scaled (undoSnapshot s) (width s) (height s)
  else Qt.fill Qt.white (Qt.QImage_new (width s) (height s)).
Proof.
  open_state s. unfold Window_undo, undoSnapshot, live. cbn.
  destruct (negb _); cbn.
  - apply deref_app_new.
  - rewrite deref_alter by (right; apply fill_null).
    now rewrite deref_app_new.
Qed.

(** What undo keeps: the object that was live becomes the undo snapshot. *)
Lemma undo_snapshot (s : DrawingArea) :
  (image s < length (store s))%nat ->
  undoSnapshot (Window_undo s) = live s.
Proof.
  open_state s. unfold Window_undo, undoSnapshot, live. cbn. intros Hr.
  destruct (negb _); cbn.
  - now apply deref_app_old.
  - rewrite deref_alter_ne by lia. now apply deref_app_old.
Qed.

Lemma live_in_store (s : DrawingArea) :
  Qt.width (live s) <> 0 -> (image s < length (store s))%nat.
Proof.
  unfold live, deref. intros Hw.
  destruct (store s !! image s) eqn:E.
  - now apply lookup_lt_Some in E.
  - simpl in Hw. contradiction.
Qed.

(** *** Mouse events leave the references and the undo snapshot alone *)

Lemma mouse_step_refs (e : Event) (s : DrawingArea) :
  isMouse e = true ->
  image (step e s) = image s /\ savedImage (step e s) = savedImage s /\
  resizeSavedImage (step e s) = resizeSavedImage s /\
  length (store (step e s)) = length (store s).
Proof.
  intros He. open_state s.
  destruct e; try discriminate; cbn.
  - unfold mousePressEvent. destruct (py_eq _ _); [|cbn; auto].
    destruct dm; cbn; [rewrite length_alter; auto|].
    destruct (Qt.QPoint_eqb _ _); cbn; [|rewrite length_alter]; auto.
  - unfold mouseMoveEvent. destruct (moveCondition _ _); cbn;
      [rewrite length_alter|]; auto.
  - auto.
Qed.

Lemma mouse_run_length (events : list Event) (s : DrawingArea) :
  forallb isMouse events = true ->
  length (store (run events s)) = length (store s).
Proof.
  revert s. induction events as [|e rest IH]; intros s Hall; [reflexivity|].
  cbn in Hall. apply andb_true_iff in Hall as [He Hrest]. cbn [run].
  rewrite (IH _ Hrest). now apply mouse_step_refs.
Qed.

Lemma mouse_step_frame (e : Event) (s : DrawingArea) :
  isMouse e = true ->
  savedImage s <> image s ->
  image (step e s) = image s /\ savedImage (step e s) = savedImage s /\
  resizeSavedImage (step e s) = resizeSavedImage s /\
  width (step e s) = width s /\ height (step e s) = height s /\
  undoSnapshot (step e s) = undoSnapshot s.
Proof.
  intros He Hne. open_state s. cbn in Hne.
  destruct e; try discriminate; cbn.
  - unfold mousePressEvent.
    destruct (py_eq _ _); [|cbn; auto 10].
    destruct dm; cbn.
    + unfold undoSnapshot; cbn. rewrite deref_alter_ne by auto. auto 10.
    + destruct (Qt.QPoint_eqb _ _); cbn; [auto 10|].
      unfold undoSnapshot; cbn. rewrite deref_alter_ne by auto. auto 10.
  - unfold mouseMoveEvent. destruct (moveCondition _ _); cbn; [|auto 10].
    unfold undoSnapshot; cbn. rewrite deref_alter_ne by auto. auto 10.
  - auto 10.
Qed.

Lemma mouse_run_frame (events : list Event) (s : DrawingArea) :
  forallb isMouse events = true ->
  savedImage s <> image s ->
  image (run events s) = image s /\ savedImage (run events s) = savedImage s /\
  resizeSavedImage (run events s) = resizeSavedImage s /\
  width (run events s) = width s /\ height (run events s) = height s /\
  undoSnapshot (run events s) = undoSnapshot s.
Proof.
  revert s. induction events as [|e rest IH]; intros s Hall Hne.
  - cbn. auto 10.
  - cbn in Hall. apply andb_true_iff in Hall as [He Hrest]. cbn [run].
    destruct (mouse_step_frame e s He Hne) as (Hi & Hs & Hr & Hw & Hh & Hu).
    destruct (IH (step e s) Hrest) as (Hi' & Hs' & Hr' & Hw' & Hh' & Hu').
    { congruence. }
    repeat split; congruence.
Qed.

Lemma stroke_isMouse (press : QMouseEvent) (moves : list QMouseEvent)
    (release : QMouseEvent) :
  forallb isMouse (stroke press moves release) = true.
Proof.
  unfold stroke. cbn. rewrite forallb_app. cbn.
  rewrite andb_true_r. induction moves; cbn; auto.
Qed.

(** C2: after stroke A and stroke B, each ended by its release, an undo is
    expected to show the canvas as it was after stroke A.  On a fresh
    canvas the releases commit nothing, so the undo snapshot is still empty
    and the undo shows an all-white canvas of the widget's size, whatever
    the strokes were; the canvas with both strokes becomes the undo
    snapshot, which a second undo scales back. *)
Theorem C2_undo_after_two_strokes_is_blank (w h : Z)
    (pressA : QMouseEvent) (movesA : list QMouseEvent) (releaseA : QMouseEvent)
    (pressB : QMouseEvent) (movesB : list QMouseEvent) (releaseB : QMouseEvent) :
  let afterB := run (stroke pressA movesA releaseA ++ stroke pressB movesB releaseB)
                    (DrawingArea_init w h) in
  live (Window_undo afterB) = Qt.fill Qt.white (Qt.QImage_new w h) /\
  undoSnapshot (Window_undo afterB) = live afterB /\
  live (Window_undo (Window_undo afterB)) =
    (if negb (Qt.width (live afterB) =? 0)
     then Qt.scaled (live afterB) w h
     else Qt.fill Qt.white (Qt.QImage_new w h)).
Proof.
  intros afterB.
  destruct (mouse_run_frame
              (stroke pressA movesA releaseA ++ stroke pressB movesB releaseB)
              (DrawingArea_init w h))
    as (Hi & Hs & Hr & Hw & Hh & Hu).
  { rewrite forallb_app, !stroke_isMouse. reflexivity. }
  { cbn. lia. }
  fold afterB in Hi, Hs, Hr, Hw, Hh, Hu.
  change (image (DrawingArea_init w h)) with 2%nat in Hi.
  change (width (DrawingArea_init w h)) with w in Hw.
  change (height (DrawingArea_init w h)) with h in Hh.
  assert (Hin : (image afterB < length (store afterB))%nat).
  { rewrite Hi. unfold afterB. rewrite mouse_run_length.
    - cbn. lia.
    - rewrite forallb_app, !stroke_isMouse. reflexivity. }
  assert (Hblank : live (Window_undo afterB) = Qt.fill Qt.white (Qt.QImage_new w h)).
  { rewrite undo_live, Hu, Hw, Hh. reflexivity. }
  split; [exact Hblank|]. split; [now apply undo_snapshot|].
  rewrite undo_live, (undo_snapshot _ Hin).
  destruct (undo_refs afterB) as (_ & _ & _ & -> & ->).
  now rewrite Hw, Hh.
Qed.

(** *** Every state of a run is well formed *)

Lemma wf_init (w h : Z) : wf (DrawingArea_init w h).
Proof. unfold wf. cbn. lia. Qed.

Lemma wf_step (e : Event) (s : DrawingArea) : wf s -> wf (step e s).
Proof.
  intros (Hi & Hr & Hs & Hne). open_state s. unfold wf in *. cbn in *.
  destruct e; cbn.
  - rewrite length_app. cbn. lia.
  - unfold Window_resizeEvent. destruct (negb _); cbn;
      [rewrite length_app; cbn|]; lia.
  - unfold mousePressEvent. destruct (py_eq _ _); [|cbn; lia].
    destruct dm; cbn; [rewrite length_alter; lia|].
    destruct (Qt.QPoint_eqb _ _); cbn; [|rewrite length_alter]; lia.
  - unfold mouseMoveEvent. destruct (moveCondition _ _); cbn;
      [rewrite length_alter|]; lia.
  - lia.
  - unfold changeDrawMode.
    destruct (String.eqb text "Point"); [cbn; lia|].
    destruct (String.eqb text "Line"); cbn; lia.
  - unfold changeBrushJoin.
    destruct (String.eqb text "Round" && checked),
             (String.eqb text "Miter" && checked),
             (String.eqb text "Bevel" && checked); cbn; lia.
  - unfold changeBrushCap.
    destruct (String.eqb text "Square" && checked),
             (String.eqb text "Flat" && checked),
             (String.eqb text "Round" && checked); cbn; lia.
  - unfold changeBrushStyle.
    destruct (String.eqb text " Solid" && checked),
             (String.eqb text " Dash" && checked),
             (String.eqb text " Dot" && checked); cbn; lia.
  - lia.
  - destruct col; cbn; lia.
  - unfold Window_open. destruct (String.eqb filePath EmptyString); [cbn; lia|].
    destruct file; cbn; [|lia].
    rewrite length_app, length_alter. cbn. lia.
  - unfold Window_undo, undoSnapshot. cbn. destruct (negb _); cbn.
    + rewrite length_app. cbn. lia.
    + rewrite length_alter, length_app. cbn. lia.
  - unfold Window_clear. cbn. rewrite length_alter. lia.
Qed.

(** The invariant of the store: in every state the handlers can reach from
    a new drawing area, the three references are in use and the undo
    snapshot is another object than the live image. *)
Lemma wf_run (events : list Event) (s : DrawingArea) :
  wf s -> wf (run events s).
Proof.
  revert s. induction events as [|e rest IH]; intros s Hwf; [exact Hwf|].
  cbn [run]. apply IH. now apply wf_step.
Qed.

(** *** Two undos in a row *)

(** C7, as the handler has it: in every state that the handlers reach from
    a new drawing area, undo shows the undo snapshot scaled to the widget's
    size, or a white image when the snapshot has no width, and either way
    the image that was live becomes the undo snapshot.  A second undo
    therefore shows the image that was live before the first scaled to the
    widget's size, or a white image when that image has no width; it brings
    back the pixels that were live whenever the live image has the size of
    the widget and that size is not empty. *)
Theorem C7_undo_twice_rescales_live (w h : Z) (events : list Event) :
  let s := run events (DrawingArea_init w h) in
  live (Window_undo s) =
    (if negb (Qt.width (undoSnapshot s) =? 0)
     then Qt.scaled (undoSnapshot s) (width s) (height s)
     else Qt.fill Qt.white (Qt.QImage_new (width s) (height s))) /\
  undoSnapshot (Window_undo s) = live s /\
  live (Window_undo (Window_undo s)) =
    (if negb (Qt.width (live s) =? 0)
     then Qt.scaled (live s) (width s) (height s)
     else Qt.fill Qt.white (Qt.QImage_new (width s) (height s))) /\
  (Qt.width (live s) = width s ->
   Qt.height (live s) = height s ->
   0 < width s -> 0 < height s ->
   live (Window_undo (Window_undo s)) = live s).
Proof.
  intros s.
  destruct (wf_run events (DrawingArea_init w h) (wf_init w h)) as (Hin & _).
  fold s in Hin.
  assert (Htwice : live (Window_undo (Window_undo s)) =
            (if negb (Qt.width (live s) =? 0)
             then Qt.scaled (live s) (width s) (height s)
             else Qt.fill Qt.white (Qt.QImage_new (width s) (height s)))).
  { rewrite undo_live, (undo_snapshot s Hin).
    now destruct (undo_refs s) as (_ & _ & _ & -> & ->). }
  split; [apply undo_live|]. split; [now apply undo_snapshot|].
  split; [exact Htwice|].
  intros Hw Hh Hwpos Hhpos. rewrite Htwice.
  replace (Qt.width (live s) =? 0) with false by (symmetry; apply Z.eqb_neq; lia).
  simpl. unfold Qt.scaled, Qt.isNull.
  replace (Qt.width (live s) =? 0) with false by (symmetry; apply Z.eqb_neq; lia).
  replace (width s <=? 0) with false by (symmetry; apply Z.leb_gt; lia).
  replace (height s <=? 0) with false by (symmetry; apply Z.leb_gt; lia).
  simpl. now rewrite Hw, Hh, !Z.eqb_refl.
Qed.

(** *** Open *)

(** Once a file was chosen and read, open returns normally, binds [image]
    and [resizeSavedImage] to one new object and leaves the other
    attributes alone. *)
Lemma open_refs (filePath : string) (content : list Byte.byte)
    (s : DrawingArea) :
  filePath <> EmptyString ->
  let r := Window_open filePath (Some content) s in
  fst r = Returned /\
  image (snd r) = length (store s) /\
  resizeSavedImage (snd r) = image (snd r) /\
  savedImage (snd r) = savedImage s /\
  drawing (snd r) = drawing s /\ lastPoint (snd r) = lastPoint s /\
  drawMode (snd r) = drawMode s /\
  width (snd r) = width s /\ height (snd r) = height s.
Proof.
  intros Hpath r. subst r. unfold Window_open.
  apply String.eqb_neq in Hpath. rewrite Hpath.
  open_state s. cbn. rewrite length_alter. auto 10.
Qed.

(** What open shows: the decoded image scaled to the widget. *)
Lemma open_live (filePath : string) (content : list Byte.byte)
    (s : DrawingArea) :
  filePath <> EmptyString ->
  (image s < length (store s))%nat \/ Qt.isNull (Qt.fromData content) = true ->
  live (snd (Window_open filePath (Some content) s)) =
  Qt.scaled (Qt.fromData content) (width s) (height s).
Proof.
  intros Hpath Hin. unfold Window_open.
  apply String.eqb_neq in Hpath. rewrite Hpath.
  open_state s. unfold live. cbn in *. rewrite deref_app_new.
  destruct Hin as [Hin|Hnull].
  - now rewrite deref_alter by (left; exact Hin).
  - unfold deref. rewrite list_lookup_alter_eq.
    destruct (st !! im); simpl; [reflexivity|].
    unfold Qt.scaled. now rewrite Hnull.
Qed.

(** What open keeps: the undo snapshot, when it is another object than the
    image that is loaded into. *)
Lemma open_undoSnapshot (filePath : string) (file : option (list Byte.byte))
    (s : DrawingArea) :
  wf s ->
  undoSnapshot (snd (Window_open filePath file s)) = undoSnapshot s.
Proof.
  intros (Hi & Hr & Hs & Hne). unfold Window_open.
  destruct (String.eqb filePath EmptyString); [reflexivity|].
  destruct file as [content|]; [|reflexivity].
  open_state s. unfold undoSnapshot. cbn in *.
  rewrite deref_app_old by now rewrite length_alter.
  apply deref_alter_ne. auto.
Qed.

(** C3: when the bytes given to open do not decode, open returns like
    any other call and reports nothing; the live image object is made the
    null image by the failed load, and the scaled copy of it that becomes
    the live surface and the resize snapshot is the null image as well.
    The undo snapshot, the drawing flag and the anchor stay as they were. *)
Theorem C3_failed_open_empties_canvas (filePath : string)
    (content : list Byte.byte) (s : DrawingArea) :
  filePath <> EmptyString ->
  Qt.isNull (Qt.fromData content) = true ->
  let r := Window_open filePath (Some content) s in
  fst r = Returned /\
  live (snd r) = Qt.QImage_null /\
  resizeSnapshot (snd r) = Qt.QImage_null /\
  savedImage (snd r) = savedImage s /\
  (wf s -> undoSnapshot (snd r) = undoSnapshot s) /\
  drawing (snd r) = drawing s /\ lastPoint (snd r) = lastPoint s.
Proof.
  intros Hpath Hnull r.
  destruct (open_refs filePath content s Hpath)
    as (Hret & Hi & Hrs & Hsv & Hd & Hl & _).
  fold r in Hret, Hi, Hrs, Hsv, Hd, Hl.
  assert (Hlive : live (snd r) = Qt.QImage_null).
  { unfold r. rewrite open_live by auto.
    unfold Qt.scaled. now rewrite Hnull. }
  repeat split; auto.
  - unfold resizeSnapshot. rewrite Hrs. exact Hlive.
  - intros Hwf. unfold r. now apply open_undoSnapshot.
Qed.

(** C5: after an open, the resize snapshot is expected to be a copy that
    later drawing does not reach.  Open binds [resizeSavedImage] to the very
    object that is the live image: every mouse event leaves the two
    attributes on one object, and a left press in Point mode paints its
    point into what the resize snapshot holds. *)
Theorem C5_open_snapshot_is_live_object (filePath : string)
    (content : list Byte.byte) (s : DrawingArea) (event : QMouseEvent) :
  filePath <> EmptyString ->
  button event = Qt.LeftButton ->
  drawMode s = Point ->
  let opened := snd (Window_open filePath (Some content) s) in
  let drawn := mousePressEvent event opened in
  resizeSavedImage opened = image opened /\
  resizeSavedImage drawn = image drawn /\
  resizeSnapshot drawn =
    Qt.paint (Qt.drawPoint (pen s) (pos event)) (resizeSnapshot opened).
Proof.
  intros Hpath Hb Hm opened drawn.
  destruct (open_refs filePath content s Hpath)
    as (_ & Hi & Hrs & _ & _ & _ & Hdm & _).
  fold opened in Hi, Hrs, Hdm.
  assert (Hpen : pen opened = pen s).
  { unfold opened, Window_open. apply String.eqb_neq in Hpath.
    rewrite Hpath. open_state s. reflexivity. }
  destruct (mouse_step_refs (MousePress event) opened eq_refl)
    as (Hi' & _ & Hrs' & _).
  cbn [step] in Hi', Hrs'. fold drawn in Hi', Hrs'.
  split; [exact Hrs|]. split; [congruence|].
  unfold resizeSnapshot. rewrite Hrs', Hrs.
  unfold drawn, mousePressEvent. rewrite Hb, Hdm, Hm, Hpen. cbn.
  apply deref_alter. right. apply paint_null.
Qed.

(** On a well-formed state, open binds the live image and the resize
    snapshot to a new object and keeps the undo snapshot, which the next
    undo shows. *)
Lemma open_then_undo (filePath : string) (content : list Byte.byte)
    (s : DrawingArea) :
  wf s ->
  filePath <> EmptyString ->
  let opened := snd (Window_open filePath (Some content) s) in
  image opened <> image s /\
  live opened = Qt.scaled (Qt.fromData content) (width s) (height s) /\
  resizeSavedImage opened = image opened /\
  savedImage opened = savedImage s /\
  undoSnapshot opened = undoSnapshot s /\
  live (Window_undo opened) =
    (if negb (Qt.width (undoSnapshot s) =? 0)
     then Qt.scaled (undoSnapshot s) (width s) (height s)
     else Qt.fill Qt.white (Qt.QImage_new (width s) (height s))).
Proof.
  intros Hwf Hpath opened.
  destruct (open_refs filePath content s Hpath)
    as (_ & Hi & Hrs & Hsv & _ & _ & _ & Hw & Hh).
  fold opened in Hi, Hrs, Hsv, Hw, Hh.
  assert (Hu : undoSnapshot opened = undoSnapshot s)
    by now apply open_undoSnapshot.
  destruct Hwf as (Hin & _).
  repeat split; auto.
  - lia.
  - unfold opened. apply open_live; auto.
  - now rewrite undo_live, Hu, Hw, Hh.
Qed.

(** C10: in every state that the handlers reach from a new drawing area,
    a successful open binds the live image and the resize snapshot to a
    new object, the decoded image scaled to the widget, and does not touch
    the undo snapshot; an undo right after it therefore shows what the
    undo snapshot held before the open, scaled to the widget, or a white
    image when that snapshot has no width: the canvas that was live before
    the open plays no part. *)
Theorem C10_open_keeps_undo_snapshot (w h : Z) (events : list Event)
    (filePath : string) (content : list Byte.byte) :
  filePath <> EmptyString ->
  Qt.isNull (Qt.fromData content) = false ->
  let s := run events (DrawingArea_init w h) in
  let opened := snd (Window_open filePath (Some content) s) in
  image opened <> image s /\
  live opened = Qt.scaled (Qt.fromData content) (width s) (height s) /\
  resizeSavedImage opened = image opened /\
  savedImage opened = savedImage s /\
  undoSnapshot opened = undoSnapshot s /\
  live (Window_undo opened) =
    (if negb (Qt.width (undoSnapshot s) =? 0)
     then Qt.scaled (undoSnapshot s) (width s) (height s)
     else Qt.fill Qt.white (Qt.QImage_new (width s) (height s))).
Proof.
  intros Hpath _ s. apply open_then_undo; [|exact Hpath].
  apply wf_run, wf_init.
Qed.

(** *** Resize *)

Lemma area_resize_live (s : DrawingArea) :
  live (DrawingArea_resizeEvent s) = Qt.scaled (live s) (width s) (height s).
Proof.
  open_state s. unfold DrawingArea_resizeEvent, live. cbn.
  apply deref_app_new.
Qed.

Lemma window_resize_live (s : DrawingArea) :
  live (Window_resizeEvent s) =
  if negb (Qt.width (resizeSnapshot s) =? 0)
  then Qt.scaled (resizeSnapshot s) (width s) (height s)
  else live s.
Proof.
  open_state s. unfold Window_resizeEvent, live, resizeSnapshot. cbn.
  destruct (negb _); cbn; [apply deref_app_new|reflexivity].
Qed.

(** After a resize of the drawing area and the resize handler of the
    window, in this order, the live surface is the scaled resize snapshot
    when that has a width, and the scaled live content only otherwise. *)
Lemma area_then_window_resize_live (w h : Z) (s : DrawingArea) :
  (resizeSavedImage s < length (store s))%nat ->
  live (run [Resize w h; WindowResize] s) =
  if negb (Qt.width (resizeSnapshot s) =? 0)
  then Qt.scaled (resizeSnapshot s) w h
  else Qt.scaled (live s) w h.
Proof.
  intros Hin. cbn [run step]. rewrite window_resize_live.
  assert (Hsnap : resizeSnapshot (DrawingArea_resizeEvent (setGeometry w h s))
                  = resizeSnapshot s).
  { open_state s. unfold DrawingArea_resizeEvent, resizeSnapshot. cbn in *.
    now apply deref_app_old. }
  rewrite Hsnap, area_resize_live. now open_state s.
Qed.

(** While the resize snapshot is the live image object itself, the window's
    handler scales the live content. *)
Lemma window_resize_alias (s : DrawingArea) :
  resizeSavedImage s = image s ->
  live (Window_resizeEvent s) =
  if negb (Qt.width (live s) =? 0)
  then Qt.scaled (live s) (width s) (height s)
  else live s.
Proof.
  intros Halias. rewrite window_resize_live.
  unfold resizeSnapshot, live. now rewrite Halias.
Qed.

(** C6, as the handlers have it: the resize handler of the drawing area
    replaces the live surface by its own content scaled to the new size,
    without regard to the aspect ratio.  The resize handler of the window
    replaces the live surface by the resize snapshot scaled to the size of
    the drawing area whenever that snapshot has a width, and leaves the
    surface alone otherwise. *)
Theorem C6_resize_scales_live_or_snapshot (w h : Z) (s : DrawingArea) :
  live (step (Resize w h) s) = Qt.scaled (live s) w h /\
  live (Window_resizeEvent s) =
    (if negb (Qt.width (resizeSnapshot s) =? 0)
     then Qt.scaled (resizeSnapshot s) (width s) (height s)
     else live s).
Proof.
  split.
  - cbn [step]. rewrite area_resize_live. now open_state s.
  - apply window_resize_live.
Qed.

(** *** Draw mode *)

Lemma changeDrawMode_modeText (m : DrawMode) (s : DrawingArea) :
  changeDrawMode (modeText m) s = set_lastPoint Qt.QPoint_null (set_drawMode m s).
Proof. destruct m; reflexivity. Qed.

(** C8, as the handler has it: with a Line anchor pending, choosing either
    draw mode clears the anchor and draws nothing, and leaves the drawing
    flag as it was; the machine is Idle afterwards unless the new mode is
    Point and the flag was set.  The state after the change is the same
    whatever the anchor was, and the next left press draws a point at its
    own position in Point mode and nothing in Line mode, so that no line
    from the discarded anchor can follow. *)
Theorem C8_mode_change_clears_anchor (m : DrawMode) (s : DrawingArea) :
  drawMode s = Line ->
  lastPoint s <> Qt.QPoint_null ->
  let s' := changeDrawMode (modeText m) s in
  lastPoint s' = Qt.QPoint_null /\ drawMode s' = m /\
  store s' = store s /\ drawing s' = drawing s /\
  strokeState s' =
    match m with
    | Point => if drawing s then PointDrawing else Idle
    | Line => Idle
    end /\
  (forall anchor, changeDrawMode (modeText m) (set_lastPoint anchor s) = s') /\
  (forall event, button event = Qt.LeftButton ->
     live (mousePressEvent event s') =
       match m with
       | Point => Qt.paint (Qt.drawPoint (pen s) (pos event)) (live s)
       | Line => live s
       end).
Proof.
  intros _ _ s'. subst s'. rewrite changeDrawMode_modeText.
  repeat apply conj; try now open_state s.
  - open_state s. destruct m; reflexivity.
  - intros event Hb. unfold mousePressEvent. rewrite Hb.
    open_state s. cbn. destruct m; cbn; [|reflexivity].
    unfold live. cbn. apply deref_alter. right. apply paint_null.
Qed.

(** *** Clear *)

Lemma clear_live (s : DrawingArea) :
  live (Window_clear s) = Qt.fill Qt.white (live s).
Proof.
  open_state s. unfold Window_clear, live. cbn.
  apply deref_alter. right. apply fill_null.
Qed.

(** C9: clear makes every pixel of the live surface white and leaves the
    anchor, the drawing flag and the draw mode as they were; a left press
    in Line mode after the clear, with an anchor that was pending before
    it, draws the line from that anchor to the press onto the cleared
    surface. *)
Theorem C9_clear_keeps_anchor (s : DrawingArea) :
  live (Window_clear s) = Qt.fill Qt.white (live s) /\
  Forall (fun p => p = Qt.white) (Qt.pixels (live (Window_clear s))) /\
  lastPoint (Window_clear s) = lastPoint s /\
  drawing (Window_clear s) = drawing s /\
  drawMode (Window_clear s) = drawMode s /\
  strokeState (Window_clear s) = strokeState s /\
  (forall event,
     button event = Qt.LeftButton ->
     drawMode s = Line ->
     lastPoint s <> Qt.QPoint_null ->
     live (mousePressEvent event (Window_clear s)) =
       Qt.paint (Qt.drawLine (pen s) (lastPoint s) (pos event))
                (Qt.fill Qt.white (live s))).
Proof.
  split; [apply clear_live|]. split.
  { rewrite clear_live. apply fill_pixels. }
  split; [now open_state s|]. split; [now open_state s|].
  split; [now open_state s|]. split; [now open_state s|].
  intros event Hb Hm Hl.
  destruct (line_second_press event (Window_clear s)) as (Hlive & _).
  - exact Hb.
  - open_state s. exact Hm.
  - open_state s. exact Hl.
  - rewrite Hlive, clear_live. now open_state s.
Qed.

End Properties.

(** ** The sessions, computed *)

Section Sessions.

Import Simple.
Local Existing Instance Simple.engine.

(** C1, on the first click of a session: the button goes up and the
    machine is still in PointDrawing. *)
Lemma C1_release_commits_nothing_witness :
  button (leftUp 0 0) = Qt.LeftButton /\
  strokeState Session.midStroke = PointDrawing /\
  mouseReleaseEvent (leftUp 0 0) Session.midStroke = Session.midStroke /\
  drawing (mouseReleaseEvent (leftUp 0 0) Session.midStroke) = true.
Proof.
  assert (Hb : button (leftUp 0 0) = Qt.LeftButton) by reflexivity.
  assert (Hs : strokeState Session.midStroke = PointDrawing)
    by (vm_compute; reflexivity).
  destruct (C1_release_commits_nothing (leftUp 0 0) Session.midStroke Hb Hs)
    as (H1 & _ & H3 & _).
  exact (conj Hb (conj Hs (conj H1 H3))).
Defined.

(** C2, on the two one-click strokes: the undo shows neither stroke, where
    the canvas after stroke A had the first. *)
Lemma undo_after_two_clicks :
  live (Window_undo Session.afterB) = Qt.fill Qt.white (Qt.QImage_new 3 3) /\
  live (Window_undo Session.afterB) <> live Session.afterA /\
  live (Window_undo (Window_undo Session.afterB)) = live Session.afterB.
Proof.
  vm_compute. repeat split. discriminate.
Qed.

(** C3 does not hold: bytes that do not decode are opened on the canvas
    that has stroke A; open returns normally, and the live surface is no
    longer what it was. *)
Lemma C3_open_garbage_counterexample :
  Qt.isNull (Qt.fromData garbage) = true /\
  fst (Window_open "picture.png" (Some garbage) Session.afterA) = Returned /\
  live (snd (Window_open "picture.png" (Some garbage) Session.afterA))
    <> live Session.afterA.
Proof.
  vm_compute. repeat split. discriminate.
Qed.

(** C3 as the handler has it, on the same bytes and canvas: the live
    surface is the null image. *)
Lemma C3_failed_open_empties_canvas_witness :
  "picture.png"%string <> EmptyString /\
  Qt.isNull (Qt.fromData garbage) = true /\
  live (snd (Window_open "picture.png" (Some garbage) Session.afterA))
    = Qt.QImage_null.
Proof.
  assert (Hp : "picture.png"%string <> EmptyString) by discriminate.
  assert (Hn : Qt.isNull (Qt.fromData garbage) = true) by reflexivity.
  destruct (C3_failed_open_empties_canvas "picture.png" garbage Session.afterA
              Hp Hn) as (_ & Hlive & _).
  exact (conj Hp (conj Hn Hlive)).
Defined.

(** C4, on a canvas 60 pixels wide: after the presses at (0,0) and (50,0)
    every pixel is still white. *)
Lemma line_from_origin_on_wide_canvas :
  live (Session.run [ChangeDrawMode "Line"; MousePress (leftAt 0 0);
                     MousePress (leftAt 50 0)] (DrawingArea_init 60 1))
  = Qt.fill Qt.white (Qt.QImage_new 60 1).
Proof.
  vm_compute. reflexivity.
Qed.

(** The same presses one pixel to the right draw the line. *)
Lemma line_from_next_pixel :
  Qt.pixels
    (live (Session.run [ChangeDrawMode "Line"; MousePress (leftAt 1 0);
                        MousePress (leftAt 5 0)] (DrawingArea_init 8 1)))
  = [Qt.white; Qt.black; Qt.black; Qt.black; Qt.black; Qt.black;
     Qt.white; Qt.white].
Proof.
  vm_compute. reflexivity.
Qed.

(** C5, on the opened picture: a click in the bottom right corner changes
    what the resize snapshot holds. *)
Lemma C5_open_snapshot_is_live_object_witness :
  "picture.png"%string <> EmptyString /\
  button (leftAt 1 1) = Qt.LeftButton /\
  drawMode (DrawingArea_init 2 2) = Point /\
  resizeSavedImage Session.opened = image Session.opened /\
  resizeSnapshot (mousePressEvent (leftAt 1 1) Session.opened)
    <> resizeSnapshot Session.opened.
Proof.
  assert (Hp : "picture.png"%string <> EmptyString) by discriminate.
  assert (Hb : button (leftAt 1 1) = Qt.LeftButton) by reflexivity.
  assert (Hm : drawMode (DrawingArea_init 2 2) = Point) by reflexivity.
  destruct (C5_open_snapshot_is_live_object "picture.png" picture
              (DrawingArea_init 2 2) (leftAt 1 1) Hp Hb Hm)
    as (Halias & _ & Hpainted).
  refine (conj Hp (conj Hb (conj Hm (conj Halias _)))).
  change (snd (Window_open "picture.png" (Some picture) (DrawingArea_init 2 2)))
    with Session.opened in Hpainted.
  rewrite Hpainted. vm_compute. discriminate.
Defined.

(** C6 does not hold: the picture is opened, undone, and a point is drawn
    on the white canvas that the undo left.  The resize handler of the
    window then shows the picture again and not the canvas with the point:
    on its own at the same size, and with the resize handler of the
    drawing area at another size, whichever of the two runs first. *)
Lemma C6_window_resize_counterexample :
  live (Window_resizeEvent Session.openedUndoneDrawn)
    <> Qt.scaled (live Session.openedUndoneDrawn) 2 2 /\
  live (Session.run [Resize 4 2; WindowResize] Session.openedUndoneDrawn)
    <> Qt.scaled (live Session.openedUndoneDrawn) 4 2 /\
  live (Session.run [Resize 4 2; WindowResize] Session.openedUndoneDrawn)
    = Qt.scaled (resizeSnapshot Session.openedUndoneDrawn) 4 2 /\
  live (Session.run [WindowResize; Resize 4 2] Session.openedUndoneDrawn)
    <> Qt.scaled (live Session.openedUndoneDrawn) 4 2.
Proof.
  vm_compute. repeat split; discriminate.
Qed.

(** C7 does not hold: bytes that do not decode were opened on the canvas
    with stroke A, which left the null image as the live image of the 3 by
    3 widget.  The first undo keeps that image as the undo snapshot; its
    width 0 is what the second undo takes for no snapshot, so that the
    second undo shows a white image and not what was live.  The size of
    the widget is the same throughout. *)
Lemma C7_undo_twice_counterexample :
  width (Window_undo (Window_undo Session.emptied)) = width Session.emptied /\
  height (Window_undo (Window_undo Session.emptied)) = height Session.emptied /\
  live Session.emptied = Qt.QImage_null /\
  undoSnapshot (Window_undo Session.emptied) = Qt.QImage_null /\
  live (Window_undo (Window_undo Session.emptied))
    = Qt.fill Qt.white (Qt.QImage_new 3 3) /\
  live (Window_undo (Window_undo Session.emptied)) <> live Session.emptied.
Proof.
  vm_compute. repeat split. discriminate.
Qed.

(** C7 as the handler has it, after stroke A, an undo and stroke B: the
    canvas has the size of the widget, and two more undos bring stroke B
    back. *)
Lemma C7_undo_twice_rescales_live_witness :
  Qt.width (live Session.undone) = width Session.undone /\
  Qt.height (live Session.undone) = height Session.undone /\
  0 < width Session.undone /\ 0 < height Session.undone /\
  undoSnapshot (Window_undo Session.undone) = live Session.undone /\
  live (Window_undo (Window_undo Session.undone)) = live Session.undone.
Proof.
  unfold Session.undone, Session.run, Session.canvas.
  pose proof (C7_undo_twice_rescales_live 3 3 Session.undoneEvents) as H.
  cbv zeta in H. destruct H as (_ & Hsnap & _ & Htwice).
  assert (Hw : Qt.width (live (run Session.undoneEvents (DrawingArea_init 3 3)))
               = width (run Session.undoneEvents (DrawingArea_init 3 3)))
    by (vm_compute; reflexivity).
  assert (Hh : Qt.height (live (run Session.undoneEvents (DrawingArea_init 3 3)))
               = height (run Session.undoneEvents (DrawingArea_init 3 3)))
    by (vm_compute; reflexivity).
  assert (Hwpos : 0 < width (run Session.undoneEvents (DrawingArea_init 3 3)))
    by (vm_compute; reflexivity).
  assert (Hhpos : 0 < height (run Session.undoneEvents (DrawingArea_init 3 3)))
    by (vm_compute; reflexivity).
  exact (conj Hw (conj Hh (conj Hwpos (conj Hhpos
           (conj Hsnap (Htwice Hw Hh Hwpos Hhpos)))))).
Defined.

(** C8 does not hold: a stroke was drawn in Point mode, and a Line anchor
    is pending at (2,2).  Going back to Point mode clears the anchor, but
    the drawing flag of the earlier stroke is still set: the machine is in
    PointDrawing, and a move with the button held draws at once. *)
Lemma C8_mode_change_counterexample :
  drawMode Session.anchored = Line /\
  lastPoint Session.anchored = Qt.mkQPoint 2 2 /\
  strokeState Session.anchored = LinePending /\
  strokeState (changeDrawMode "Point" Session.anchored) = PointDrawing /\
  strokeState (changeDrawMode "Point" Session.anchored) <> Idle /\
  live (mouseMoveEvent (leftAt 2 0) (changeDrawMode "Point" Session.anchored))
    <> live (changeDrawMode "Point" Session.anchored).
Proof.
  vm_compute. repeat split; discriminate.
Qed.

(** C8 as the handler has it, on the same session: the anchor is cleared,
    nothing is drawn, and the next press draws a point where it falls. *)
Lemma C8_mode_change_clears_anchor_witness :
  drawMode Session.anchored = Line /\
  lastPoint Session.anchored <> Qt.QPoint_null /\
  lastPoint (changeDrawMode "Point" Session.anchored) = Qt.QPoint_null /\
  store (changeDrawMode "Point" Session.anchored) = store Session.anchored /\
  live (mousePressEvent (leftAt 0 2) (changeDrawMode "Point" Session.anchored))
    = Qt.paint (Qt.drawPoint (pen Session.anchored) (pos (leftAt 0 2)))
               (live Session.anchored).
Proof.
  assert (Hm : drawMode Session.anchored = Line) by (vm_compute; reflexivity).
  assert (Hl : lastPoint Session.anchored <> Qt.QPoint_null)
    by (vm_compute; discriminate).
  destruct (C8_mode_change_clears_anchor Point Session.anchored Hm Hl)
    as (Hanchor & _ & Hstore & _ & _ & _ & Hpress).
  exact (conj Hm (conj Hl (conj Hanchor (conj Hstore
           (Hpress (leftAt 0 2) eq_refl))))).
Defined.

(** C9, with the Line anchor pending at (2,2): after a clear, a press at
    (0,2) draws the line from (2,2) on the white canvas. *)
Lemma C9_clear_keeps_anchor_witness :
  button (leftAt 0 2) = Qt.LeftButton /\
  drawMode Session.anchored = Line /\
  lastPoint Session.anchored <> Qt.QPoint_null /\
  lastPoint (Window_clear Session.anchored) = Qt.mkQPoint 2 2 /\
  live (mousePressEvent (leftAt 0 2) (Window_clear Session.anchored))
    = Qt.paint (Qt.drawLine (pen Session.anchored) (Qt.mkQPoint 2 2)
                            (Qt.mkQPoint 0 2))
               (Qt.fill Qt.white (live Session.anchored)).
Proof.
  assert (Hb : button (leftAt 0 2) = Qt.LeftButton) by reflexivity.
  assert (Hm : drawMode Session.anchored = Line) by (vm_compute; reflexivity).
  assert (Hl : lastPoint Session.anchored <> Qt.QPoint_null)
    by (vm_compute; discriminate).
  destruct (C9_clear_keeps_anchor Session.anchored)
    as (_ & _ & Hanchor & _ & _ & _ & Hpress).
  exact (conj Hb (conj Hm (conj Hl (conj Hanchor
           (Hpress (leftAt 0 2) Hb Hm Hl))))).
Defined.

(** The line of the last witness, pixel by pixel: the bottom row is black,
    and stroke A in the top left corner is gone. *)
Lemma line_after_clear :
  Qt.pixels (live (mousePressEvent (leftAt 0 2) (Window_clear Session.anchored)))
  = [Qt.white; Qt.white; Qt.white;
     Qt.white; Qt.white; Qt.white;
     Qt.black; Qt.black; Qt.black].
Proof.
  vm_compute. reflexivity.
Qed.

(** C10, after stroke A, an undo and stroke B: the picture is opened, and
    the undo that follows shows stroke A, which the undo snapshot held, and
    not the canvas with stroke B that was live before the open. *)
Lemma C10_open_keeps_undo_snapshot_witness :
  "picture.png"%string <> EmptyString /\
  Qt.isNull (Qt.fromData picture) = false /\
  undoSnapshot (snd (Window_open "picture.png" (Some picture) Session.undone))
    = live Session.afterA /\
  live (Window_undo
          (snd (Window_open "picture.png" (Some picture) Session.undone)))
    = live Session.afterA /\
  live Session.undone <> live Session.afterA.
Proof.
  assert (Hp : "picture.png"%string <> EmptyString) by discriminate.
  assert (Hn : Qt.isNull (Qt.fromData picture) = false) by reflexivity.
  destruct (C10_open_keeps_undo_snapshot 3 3 Session.undoneEvents
              "picture.png" picture Hp Hn)
    as (_ & _ & _ & _ & Hsnap & Hundo).
  unfold Session.undone, Session.run, Session.canvas.
  refine (conj Hp (conj Hn (conj _ (conj _ _)))).
  - rewrite Hsnap. vm_compute. reflexivity.
  - rewrite Hundo. vm_compute. reflexivity.
  - vm_compute. discriminate.
Defined.

End Sessions.

(** ** More of the handlers *)

Section Further.

Context `{engine : Qt.Engine}.

Lemma run_app (a b : list Event) (s : DrawingArea) :
  run (a ++ b) s = run b (run a s).
Proof.
  revert s. induction a as [|e a IH]; intros s; [reflexivity|].
  cbn [app run]. apply IH.
Qed.

(** *** Mouse input *)

(** Presses of any button but the left one leave every attribute as it
    is. *)
Theorem press_other_button_ignored (event : QMouseEvent) (s : DrawingArea) :
  button event <> Qt.LeftButton ->
  mousePressEvent event s = s.
Proof.
  intros Hb. unfold mousePressEvent.
  destruct (button event); try reflexivity. contradiction.
Qed.

Lemma land_1 (a : Z) : Z.land a 1 = Z.b2z (Z.testbit a 0).
Proof.
  change 1 with (Z.ones 1) at 1.
  rewrite Z.land_ones by lia. now rewrite Z.bit0_mod.
Qed.

Lemma move_condition_iff (event : QMouseEvent) (s : DrawingArea) :
  moveCondition event s = true <->
  leftHeld event = true /\ drawing s = true /\ drawMode s = Point.
Proof.
  unfold moveCondition, leftHeld. cbn [Qt.MouseButton_value].
  rewrite land_1.
  destruct (Z.testbit (buttons event) 0), (drawing s), (drawMode s);
    cbn; split; try discriminate; try tauto; intros (? & ? & ?); discriminate.
Qed.

(** The bitwise condition of the move handler holds exactly when the left
    button is held, the drawing flag is set and the mode is Point; a move
    without the left button, before any Point press, or in Line mode
    leaves every attribute as it is. *)
Theorem move_draws_only_in_stroke (event : QMouseEvent) (s : DrawingArea) :
  (moveCondition event s = true <->
   leftHeld event = true /\ drawing s = true /\ drawMode s = Point) /\
  (leftHeld event = false \/ drawing s = false \/ drawMode s = Line ->
   mouseMoveEvent event s = s).
Proof.
  split; [apply move_condition_iff|].
  intros Hout. unfold mouseMoveEvent.
  destruct (moveCondition event s) eqn:E; [|reflexivity].
  apply move_condition_iff in E as (Hh & Hd & Hm).
  destruct Hout as [H|[H|H]]; congruence.
Qed.

(** A move with the button held, in the middle of a Point stroke: a
    segment from the last position to the new one. *)
Lemma move_in_stroke (event : QMouseEvent) (s : DrawingArea) :
  leftHeld event = true -> drawing s = true -> drawMode s = Point ->
  live (mouseMoveEvent event s) =
    Qt.paint (Qt.drawLine (pen s) (lastPoint s) (pos event)) (live s) /\
  lastPoint (mouseMoveEvent event s) = pos event /\
  drawing (mouseMoveEvent event s) = true /\
  drawMode (mouseMoveEvent event s) = Point /\
  pen (mouseMoveEvent event s) = pen s.
Proof.
  intros Hh Hd Hm. unfold mouseMoveEvent.
  replace (moveCondition event s) with true
    by (symmetry; apply move_condition_iff; auto).
  open_state s. cbn in *. repeat apply conj; auto.
  unfold live. cbn. apply deref_alter. right. apply paint_null.
Qed.

Lemma moves_in_stroke (p : Qt.QPen) (moves : list QMouseEvent)
    (s : DrawingArea) :
  Forall (fun e => leftHeld e = true) moves ->
  drawing s = true -> drawMode s = Point -> pen s = p ->
  let r := fold_left
             (fun acc e =>
                (pos e, Qt.paint (Qt.drawLine p (fst acc) (pos e)) (snd acc)))
             moves (lastPoint s, live s) in
  live (run (map MouseMove moves) s) = snd r /\
  lastPoint (run (map MouseMove moves) s) = fst r /\
  drawing (run (map MouseMove moves) s) = true.
Proof.
  revert s. induction moves as [|e rest IH]; intros s Hall Hd Hm Hp.
  - cbn. auto.
  - apply Forall_cons_1 in Hall as [He Hrest].
    destruct (move_in_stroke e s He Hd Hm) as (Hl & Ha & Hd' & Hm' & Hp').
    cbn [map run step fold_left fst snd].
    specialize (IH (mouseMoveEvent e s) Hrest Hd' Hm' (eq_trans Hp' Hp)).
    cbv zeta in IH. rewrite Ha, Hl, Hp in IH. exact IH.
Qed.

(** A freehand stroke: in Point mode, a left press and the moves made with
    the button held paint the point of the press and then one segment from
    each position to the next, all with the pen of the moment of the
    press; the anchor ends on the last position and the drawing flag is
    set. *)
Theorem freehand_stroke_chains_segments (press : QMouseEvent)
    (moves : list QMouseEvent) (s : DrawingArea) :
  button press = Qt.LeftButton ->
  drawMode s = Point ->
  Forall (fun e => leftHeld e = true) moves ->
  let r := fold_left
             (fun acc e =>
                (pos e,
                 Qt.paint (Qt.drawLine (pen s) (fst acc) (pos e)) (snd acc)))
             moves
             (pos press, Qt.paint (Qt.drawPoint (pen s) (pos press)) (live s)) in
  let s' := run (MousePress press :: map MouseMove moves) s in
  live s' = snd r /\ lastPoint s' = fst r /\ drawing s' = true.
Proof.
  intros Hb Hm Hall r s'. subst r s'. cbn [run step].
  assert (Hpress : live (mousePressEvent press s)
                   = Qt.paint (Qt.drawPoint (pen s) (pos press)) (live s) /\
                   lastPoint (mousePressEvent press s) = pos press /\
                   drawing (mousePressEvent press s) = true /\
                   drawMode (mousePressEvent press s) = Point /\
                   pen (mousePressEvent press s) = pen s).
  { unfold mousePressEvent. rewrite Hb, Hm. open_state s. cbn.
    repeat apply conj; auto.
    unfold live. cbn. apply deref_alter. right. apply paint_null. }
  destruct Hpress as (Hl & Ha & Hd & Hm' & Hp).
  pose proof (moves_in_stroke (pen s) moves (mousePressEvent press s)
                Hall Hd Hm' Hp) as H.
  cbv zeta in H. rewrite Ha, Hl in H. exact H.
Qed.

(** No handler clears the drawing flag: once a Point press has set it, it
    stays set through every later event. *)
Lemma drawing_step (e : Event) (s : DrawingArea) :
  drawing s = true -> drawing (step e s) = true.
Proof.
  intros Hd. open_state s. cbn in Hd. subst dr.
  destruct e; cbn.
  - reflexivity.
  - unfold Window_resizeEvent. now destruct (negb _).
  - unfold mousePressEvent. destruct (py_eq _ _); [|reflexivity].
    destruct dm; cbn; [reflexivity|]. now destruct (Qt.QPoint_eqb _ _).
  - unfold mouseMoveEvent. now destruct (moveCondition _ _).
  - reflexivity.
  - unfold changeDrawMode. destruct (String.eqb text "Point"); [reflexivity|].
    now destruct (String.eqb text "Line").
  - unfold changeBrushJoin.
    now destruct (String.eqb text "Round" && checked),
                 (String.eqb text "Miter" && checked),
                 (String.eqb text "Bevel" && checked).
  - unfold changeBrushCap.
    now destruct (String.eqb text "Square" && checked),
                 (String.eqb text "Flat" && checked),
                 (String.eqb text "Round" && checked).
  - unfold changeBrushStyle.
    now destruct (String.eqb text " Solid" && checked),
                 (String.eqb text " Dash" && checked),
                 (String.eqb text " Dot" && checked).
  - reflexivity.
  - now destruct col.
  - unfold Window_open. destruct (String.eqb filePath EmptyString); [reflexivity|].
    now destruct file.
  - unfold Window_undo, undoSnapshot. cbn. now destruct (negb _).
  - reflexivity.
Qed.

Theorem drawing_flag_never_cleared (press : QMouseEvent) (events : list Event)
    (s : DrawingArea) :
  button press = Qt.LeftButton ->
  drawMode s = Point ->
  drawing (run (MousePress press :: events) s) = true.
Proof.
  intros Hb Hm. cbn [run step].
  assert (Hd : drawing (mousePressEvent press s) = true).
  { unfold mousePressEvent. rewrite Hb, Hm. reflexivity. }
  revert Hd. generalize (mousePressEvent press s). clear.
  induction events as [|e rest IH]; intros s Hd; [exact Hd|].
  cbn [run]. apply IH. now apply drawing_step.
Qed.

(** In Line mode with no anchor pending, two left presses, the first of
    them away from the origin, draw nothing on the first press and the
    line between the two positions on the second, and leave no anchor. *)
Theorem line_mode_two_presses (first second : QMouseEvent) (s : DrawingArea) :
  button first = Qt.LeftButton ->
  button second = Qt.LeftButton ->
  drawMode s = Line ->
  lastPoint s = Qt.QPoint_null ->
  pos first <> Qt.QPoint_null ->
  store (mousePressEvent first s) = store s /\
  strokeState (mousePressEvent first s) = LinePending /\
  live (run [MousePress first; MousePress second] s) =
    Qt.paint (Qt.drawLine (pen s) (pos first) (pos second)) (live s) /\
  lastPoint (run [MousePress first; MousePress second] s) = Qt.QPoint_null /\
  strokeState (run [MousePress first; MousePress second] s) = Idle.
Proof.
  intros Hb1 Hb2 Hm Hl Hp.
  destruct (line_first_press first s Hb1 Hm Hl Hp) as (Hst & Ha & Hs).
  assert (Hm1 : drawMode (mousePressEvent first s) = Line).
  { unfold mousePressEvent. rewrite Hb1, Hm, Hl. cbn. exact Hm. }
  assert (Hl1 : lastPoint (mousePressEvent first s) <> Qt.QPoint_null)
    by now rewrite Ha.
  destruct (line_second_press second (mousePressEvent first s) Hb2 Hm1 Hl1)
    as (Hlive & Hnull & Hidle).
  cbn [run step]. repeat apply conj; auto.
  rewrite Hlive, Ha. f_equal.
  - unfold mousePressEvent. rewrite Hb1, Hm, Hl. now open_state s.
  - unfold live. rewrite Hst. f_equal.
    unfold mousePressEvent. rewrite Hb1, Hm, Hl. now open_state s.
Qed.

(** *** Open without a file *)

(** A cancelled dialog makes open return at once with every attribute as
    it was, so that in a run such an open can be left out.  A file that
    cannot be read makes open raise, and at that point no attribute has
    been assigned. *)
Theorem open_without_file_changes_nothing (filePath : string)
    (file : option (list Byte.byte)) (before after : list Event)
    (s : DrawingArea) :
  (filePath = EmptyString ->
   Window_open filePath file s = (Returned, s) /\
   run (before ++ Open filePath file :: after) s = run (before ++ after) s) /\
  (filePath <> EmptyString ->
   Window_open filePath None s = (Raised "OSError", s)).
Proof.
  split.
  - intros ->. split; [reflexivity|].
    rewrite !run_app. reflexivity.
  - intros Hne. unfold Window_open. apply String.eqb_neq in Hne.
    now rewrite Hne.
Qed.

(** *** Brush settings *)

(** The handlers of the brush controls assign brush attributes only: the
    image objects, the three references, the stroke state and the geometry
    are as before.  An unchecked radio button and a cancelled colour dialog
    change nothing at all. *)
Theorem brush_settings_leave_canvas (e : Event) (s : DrawingArea) :
  isBrush e = true ->
  store (step e s) = store s /\
  image (step e s) = image s /\
  resizeSavedImage (step e s) = resizeSavedImage s /\
  savedImage (step e s) = savedImage s /\
  drawing (step e s) = drawing s /\
  drawMode (step e s) = drawMode s /\
  lastPoint (step e s) = lastPoint s /\
  width (step e s) = width s /\ height (step e s) = height s /\
  (forall text, step (ChangeBrushJoin text false) s = s) /\
  (forall text, step (ChangeBrushCap text false) s = s) /\
  (forall text, step (ChangeBrushStyle text false) s = s) /\
  step (ShowColorDialog None) s = s.
Proof.
  intros He.
  assert (Hframe : store (step e s) = store s /\
    image (step e s) = image s /\
    resizeSavedImage (step e s) = resizeSavedImage s /\
    savedImage (step e s) = savedImage s /\
    drawing (step e s) = drawing s /\
    drawMode (step e s) = drawMode s /\
    lastPoint (step e s) = lastPoint s /\
    width (step e s) = width s /\ height (step e s) = height s).
  { open_state s. destruct e; try discriminate; cbn.
    - unfold changeBrushJoin.
      destruct (String.eqb text "Round" && checked),
               (String.eqb text "Miter" && checked),
               (String.eqb text "Bevel" && checked); cbn; auto 10.
    - unfold changeBrushCap.
      destruct (String.eqb text "Square" && checked),
               (String.eqb text "Flat" && checked),
               (String.eqb text "Round" && checked); cbn; auto 10.
    - unfold changeBrushStyle.
      destruct (String.eqb text " Solid" && checked),
               (String.eqb text " Dash" && checked),
               (String.eqb text " Dot" && checked); cbn; auto 10.
    - auto 10.
    - destruct col; cbn; auto 10. }
  destruct Hframe as (H1 & H2 & H3 & H4 & H5 & H6 & H7 & H8 & H9).
  repeat apply conj; auto; intros text; cbn [step].
  - unfold changeBrushJoin. now rewrite !andb_false_r.
  - unfold changeBrushCap. now rewrite !andb_false_r.
  - unfold changeBrushStyle. now rewrite !andb_false_r.
Qed.

(** *** The store *)

(** In every state that the handlers reach from a new drawing area, the
    three image attributes refer to objects that exist, and the undo
    snapshot is never the live image object itself. *)
Theorem reachable_store_is_sound (w h : Z) (events : list Event) :
  let s := run events (DrawingArea_init w h) in
  (image s < length (store s))%nat /\
  (resizeSavedImage s < length (store s))%nat /\
  (savedImage s < length (store s))%nat /\
  savedImage s <> image s.
Proof.
  exact (wf_run events (DrawingArea_init w h) (wf_init w h)).
Qed.

(** *** The null canvas *)

Lemma null_canvas_step (e : Event) (s : DrawingArea) :
  Qt.isNull (live s) = true -> isMouse e = true ->
  live (step e s) = live s.
Proof.
  intros Hnull He.
  assert (Hpaint : forall op, Qt.paint op (live s) = live s).
  { intros op. unfold Qt.paint. now rewrite Hnull. }
  open_state s. destruct e; try discriminate; cbn.
  - unfold mousePressEvent. destruct (py_eq _ _); [|reflexivity].
    destruct dm; cbn.
    + unfold live in *. cbn in *.
      rewrite deref_alter by (right; apply paint_null). apply Hpaint.
    + destruct (Qt.QPoint_eqb _ _); cbn; [reflexivity|].
      unfold live in *. cbn in *.
      rewrite deref_alter by (right; apply paint_null). apply Hpaint.
  - unfold mouseMoveEvent. destruct (moveCondition _ _); cbn; [|reflexivity].
    unfold live in *. cbn in *.
    rewrite deref_alter by (right; apply paint_null). apply Hpaint.
  - reflexivity.
Qed.

(** While the live image is the null image, as after a failed open, no
    mouse event paints anything, and a resize of the drawing area leaves
    the null image in place. *)
Theorem null_canvas_takes_no_stroke (events : list Event) (s : DrawingArea) :
  Qt.isNull (live s) = true ->
  forallb isMouse events = true ->
  live (run events s) = live s /\
  (forall w h, live (step (Resize w h) (run events s)) = Qt.QImage_null).
Proof.
  intros Hnull Hall.
  assert (Hlive : live (run events s) = live s).
  { revert s Hnull. induction events as [|e rest IH]; intros s Hnull;
      [reflexivity|].
    cbn in Hall. apply andb_true_iff in Hall as [He Hrest]. cbn [run].
    rewrite (IH Hrest (step e s)); rewrite null_canvas_step; auto. }
  split; [exact Hlive|]. intros w h. cbn [step].
  rewrite area_resize_live.
  replace (live (setGeometry w h (run events s))) with (live (run events s))
    by now destruct (run events s).
  rewrite Hlive. unfold Qt.scaled. now rewrite Hnull.
Qed.

(** *** Sessions without an open *)

(** As long as nothing is opened, [resizeSavedImage] stays on the empty
    image that [__init__] made, and the live image is another object. *)
Lemma no_open_step (e : Event) (s : DrawingArea) :
  isOpen e = false ->
  resizeSavedImage s = 0%nat /\ deref (store s) 0 = Qt.QImage_null /\
  image s <> 0%nat /\ (0 < length (store s))%nat ->
  resizeSavedImage (step e s) = 0%nat /\
  deref (store (step e s)) 0 = Qt.QImage_null /\
  image (step e s) <> 0%nat /\ (0 < length (store (step e s)))%nat.
Proof.
  intros He (Hrs & Hnull & Hi & Hlen). open_state s. cbn in *. subst rs.
  destruct e; try discriminate; cbn.
  - rewrite length_app, deref_app_old by lia. cbn. repeat split; auto; lia.
  - unfold Window_resizeEvent, resizeSnapshot. cbn. rewrite Hnull. cbn. auto.
  - unfold mousePressEvent. destruct (py_eq _ _); [|cbn; auto].
    destruct dm; cbn.
    + rewrite length_alter, deref_alter_ne by auto. auto.
    + destruct (Qt.QPoint_eqb _ _); cbn; [auto|].
      rewrite length_alter, deref_alter_ne by auto. auto.
  - unfold mouseMoveEvent. destruct (moveCondition _ _); cbn; [|auto].
    rewrite length_alter, deref_alter_ne by auto. auto.
  - auto.
  - unfold changeDrawMode. destruct (String.eqb text "Point"); [cbn; auto|].
    destruct (String.eqb text "Line"); cbn; auto.
  - unfold changeBrushJoin.
    destruct (String.eqb text "Round" && checked),
             (String.eqb text "Miter" && checked),
             (String.eqb text "Bevel" && checked); cbn; auto.
  - unfold changeBrushCap.
    destruct (String.eqb text "Square" && checked),
             (String.eqb text "Flat" && checked),
             (String.eqb text "Round" && checked); cbn; auto.
  - unfold changeBrushStyle.
    destruct (String.eqb text " Solid" && checked),
             (String.eqb text " Dash" && checked),
             (String.eqb text " Dot" && checked); cbn; auto.
  - auto.
  - destruct col; cbn; auto.
  - unfold Window_undo, undoSnapshot. cbn. destruct (negb _); cbn.
    + rewrite length_app, deref_app_old by lia. cbn. repeat split; auto; lia.
    + rewrite length_alter, length_app, deref_alter_ne, deref_app_old by lia.
      cbn. repeat split; auto; lia.
  - unfold Window_clear. cbn.
    rewrite length_alter, deref_alter_ne by auto. auto.
Qed.

Lemma no_open_run (events : list Event) (s : DrawingArea) :
  forallb (fun e => negb (isOpen e)) events = true ->
  resizeSavedImage s = 0%nat /\ deref (store s) 0 = Qt.QImage_null /\
  image s <> 0%nat /\ (0 < length (store s))%nat ->
  resizeSavedImage (run events s) = 0%nat /\
  deref (store (run events s)) 0 = Qt.QImage_null /\
  image (run events s) <> 0%nat /\ (0 < length (store (run events s)))%nat.
Proof.
  revert s. induction events as [|e rest IH]; intros s Hall Hinv; [exact Hinv|].
  cbn in Hall. apply andb_true_iff in Hall as [He Hrest]. cbn [run].
  apply IH; [exact Hrest|]. apply no_open_step; [|exact Hinv].
  now apply negb_true_iff.
Qed.

(** In a session in which nothing was opened, the resize handler of the
    window does nothing, whatever was drawn or undone: a resize of the
    drawing area followed by it shows the live content scaled to the new
    size. *)
Theorem resize_without_open_scales_live (w h : Z) (events : list Event)
    (newWidth newHeight : Z) :
  forallb (fun e => negb (isOpen e)) events = true ->
  let s := run events (DrawingArea_init w h) in
  Window_resizeEvent s = s /\
  live (run [Resize newWidth newHeight; WindowResize] s) =
    Qt.scaled (live s) newWidth newHeight.
Proof.
  intros Hall s.
  assert (Hid : forall evs, forallb (fun e => negb (isOpen e)) evs = true ->
            Window_resizeEvent (run evs (DrawingArea_init w h))
            = run evs (DrawingArea_init w h)).
  { intros evs Hevs.
    destruct (no_open_run evs (DrawingArea_init w h) Hevs)
      as (Hrs & Hnull & _).
    { cbn. repeat split; auto; lia. }
    unfold Window_resizeEvent, resizeSnapshot. rewrite Hrs, Hnull.
    reflexivity. }
  split; [now apply Hid|].
  change (run [Resize newWidth newHeight; WindowResize] s)
    with (Window_resizeEvent (step (Resize newWidth newHeight) s)).
  replace (step (Resize newWidth newHeight) s)
    with (run (events ++ [Resize newWidth newHeight]) (DrawingArea_init w h))
    by (rewrite run_app; reflexivity).
  rewrite Hid.
  - rewrite run_app. cbn [run step]. rewrite area_resize_live.
    fold s. now destruct s.
  - rewrite forallb_app, Hall. reflexivity.
Qed.

(** *** Clear and undo *)

(** Clear takes no snapshot: in every reachable state, an undo after a
    clear shows what an undo without the clear would have shown, and what
    it keeps as the new undo snapshot is the whitened canvas. *)
Theorem clear_is_not_undoable (w h : Z) (events : list Event) :
  let s := run events (DrawingArea_init w h) in
  live (Window_undo (Window_clear s)) = live (Window_undo s) /\
  undoSnapshot (Window_undo (Window_clear s)) = Qt.fill Qt.white (live s).
Proof.
  intros s.
  destruct (wf_run events (DrawingArea_init w h) (wf_init w h))
    as (Hi & _ & _ & Hne).
  fold s in Hi, Hne.
  assert (Hsnap : undoSnapshot (Window_clear s) = undoSnapshot s).
  { destruct s. unfold undoSnapshot, Window_clear. cbn in *.
    apply deref_alter_ne. auto. }
  split.
  - rewrite !undo_live, Hsnap. now destruct s.
  - rewrite undo_snapshot.
    + apply clear_live.
    + destruct s. unfold Window_clear. cbn in *. now rewrite length_alter.
Qed.

(** An even number of undos in a row, on a canvas that has the size of the
    widget, brings back the pixels that were live before the first. *)
Lemma undo_pair (s : DrawingArea) :
  Qt.width (live s) = width s -> Qt.height (live s) = height s ->
  0 < width s -> 0 < height s ->
  live (Window_undo (Window_undo s)) = live s /\
  width (Window_undo (Window_undo s)) = width s /\
  height (Window_undo (Window_undo s)) = height s.
Proof.
  intros Hw Hh Hwpos Hhpos.
  assert (Hin : (image s < length (store s))%nat)
    by (apply live_in_store; lia).
  destruct (undo_refs s) as (_ & _ & _ & Hw1 & Hh1).
  destruct (undo_refs (Window_undo s)) as (_ & _ & _ & Hw2 & Hh2).
  split; [|split; congruence].
  rewrite undo_live, (undo_snapshot s Hin), Hw1, Hh1.
  unfold Qt.scaled, Qt.isNull.
  replace (Qt.width (live s) =? 0) with false by (symmetry; apply Z.eqb_neq; lia).
  replace (width s <=? 0) with false by (symmetry; apply Z.leb_gt; lia).
  replace (height s <=? 0) with false by (symmetry; apply Z.leb_gt; lia).
  simpl. now rewrite Hw, Hh, !Z.eqb_refl.
Qed.

Theorem undo_even_times_restores (k : nat) (s : DrawingArea) :
  Qt.width (live s) = width s -> Qt.height (live s) = height s ->
  0 < width s -> 0 < height s ->
  live (Nat.iter (2 * k) Window_undo s) = live s.
Proof.
  intros Hw Hh Hwpos Hhpos.
  assert (H : live (Nat.iter (2 * k) Window_undo s) = live s /\
              width (Nat.iter (2 * k) Window_undo s) = width s /\
              height (Nat.iter (2 * k) Window_undo s) = height s).
  { induction k as [|k IH]; [cbn; auto|].
    replace (2 * S k)%nat with (S (S (2 * k))) by lia.
    rewrite !Nat.iter_succ. destruct IH as (Hl & Hw' & Hh').
    destruct (undo_pair (Nat.iter (2 * k) Window_undo s)) as (Hl2 & Hw2 & Hh2);
      try congruence; try lia.
    repeat split; congruence. }
  apply H.
Qed.

(** *** The new drawing area *)

(** A new drawing area on a widget of positive size shows a white image of
    that size, with one pixel for each position; the two snapshots are
    empty, the machine is Idle and the pen is the black, solid, round
    one-pixel pen.  On a widget without area there is no image at all. *)
Theorem new_drawing_area_is_white (w h : Z) :
  let s := DrawingArea_init w h in
  (0 < w -> 0 < h ->
   Qt.width (live s) = w /\ Qt.height (live s) = h /\
   length (Qt.pixels (live s)) = Z.to_nat (w * h) /\
   Forall (fun p => p = Qt.white) (Qt.pixels (live s))) /\
  (w <= 0 \/ h <= 0 -> live s = Qt.QImage_null) /\
  undoSnapshot s = Qt.QImage_null /\ resizeSnapshot s = Qt.QImage_null /\
  strokeState s = Idle /\
  pen s = Qt.mkQPen Qt.black 1 Qt.SolidLine Qt.RoundCap Qt.RoundJoin.
Proof.
  cbv zeta. repeat apply conj; try reflexivity.
  - intros Hw Hh. unfold live, DrawingArea_init, deref. cbn.
    unfold Qt.QImage_new.
    replace (w <=? 0) with false by (symmetry; apply Z.leb_gt; lia).
    replace (h <=? 0) with false by (symmetry; apply Z.leb_gt; lia).
    cbn. repeat apply conj; auto.
    + now rewrite length_map, length_replicate.
    + exact (fill_pixels Qt.white
               (Qt.mkQImage w h (replicate (Z.to_nat (w * h)) 0))).
  - intros Hempty. unfold live, DrawingArea_init, deref. cbn.
    unfold Qt.QImage_new.
    replace ((w <=? 0) || (h <=? 0)) with true; [reflexivity|].
    symmetry. apply orb_true_iff.
    destruct Hempty; [left|right]; now apply Z.leb_le.
Qed.

(** *** The size of the canvas *)

Section Lawful.

(** What is asked of the engine: resampling gives the size it is asked
    for, and painting keeps the size of the image. *)
Hypothesis transformed_size : forall img w h,
  Qt.width (Qt.transformed img w h) = w /\
  Qt.height (Qt.transformed img w h) = h.
Hypothesis drawPoint_size : forall p pt img,
  Qt.width (Qt.drawPoint p pt img) = Qt.width img /\
  Qt.height (Qt.drawPoint p pt img) = Qt.height img.
Hypothesis drawLine_size : forall p a b img,
  Qt.width (Qt.drawLine p a b img) = Qt.width img /\
  Qt.height (Qt.drawLine p a b img) = Qt.height img.

Lemma scaled_size (img : Qt.QImage) (w h : Z) :
  Qt.width (Qt.scaled img w h) = 0 \/
  (Qt.width (Qt.scaled img w h) = w /\ Qt.height (Qt.scaled img w h) = h).
Proof.
  unfold Qt.scaled. destruct (Qt.isNull img); [now left|].
  destruct ((w <=? 0) || (h <=? 0)); [now left|].
  destruct ((w =? Qt.width img) && (h =? Qt.height img)) eqn:E.
  - apply andb_true_iff in E as [Ew Eh].
    apply Z.eqb_eq in Ew, Eh. right. auto.
  - right. apply transformed_size.
Qed.

Lemma blank_size (w h : Z) :
  Qt.width (Qt.fill Qt.white (Qt.QImage_new w h)) = 0 \/
  (Qt.width (Qt.fill Qt.white (Qt.QImage_new w h)) = w /\
   Qt.height (Qt.fill Qt.white (Qt.QImage_new w h)) = h).
Proof.
  unfold Qt.QImage_new. destruct ((w <=? 0) || (h <=? 0)); cbn; auto.
Qed.

Lemma paint_size (op : Qt.QImage -> Qt.QImage) (img : Qt.QImage) :
  (forall i, Qt.width (op i) = Qt.width i /\ Qt.height (op i) = Qt.height i) ->
  Qt.width (Qt.paint op img) = Qt.width img /\
  Qt.height (Qt.paint op img) = Qt.height img.
Proof.
  intros Hop. unfold Qt.paint. destruct (Qt.isNull img); auto.
Qed.

Lemma canvas_size_step (e : Event) (s : DrawingArea) :
  Qt.width (live s) = 0 \/
  (Qt.width (live s) = width s /\ Qt.height (live s) = height s) ->
  Qt.width (live (step e s)) = 0 \/
  (Qt.width (live (step e s)) = width (step e s) /\
   Qt.height (live (step e s)) = height (step e s)).
Proof.
  intros Hinv.
  assert (Hpaint : forall op,
    (forall i, Qt.width (op i) = Qt.width i /\ Qt.height (op i) = Qt.height i) ->
    Qt.width (Qt.paint op (live s)) = 0 \/
    (Qt.width (Qt.paint op (live s)) = width s /\
     Qt.height (Qt.paint op (live s)) = height s)).
  { intros op Hop. destruct (paint_size op (live s) Hop) as [-> ->].
    exact Hinv. }
  open_state s. unfold live in *. cbn in Hinv, Hpaint.
  destruct e; cbn.
  - unfold DrawingArea_resizeEvent. cbn. rewrite deref_app_new.
    apply scaled_size.
  - unfold Window_resizeEvent. destruct (negb _); cbn; [|exact Hinv].
    rewrite deref_app_new. apply scaled_size.
  - unfold mousePressEvent. destruct (py_eq _ _); [|exact Hinv].
    destruct dm; cbn.
    + rewrite deref_alter by (right; apply paint_null).
      apply Hpaint. intros i. apply drawPoint_size.
    + destruct (Qt.QPoint_eqb _ _); cbn; [exact Hinv|].
      rewrite deref_alter by (right; apply paint_null).
      apply Hpaint. intros i. apply drawLine_size.
  - unfold mouseMoveEvent. destruct (moveCondition _ _); cbn; [|exact Hinv].
    rewrite deref_alter by (right; apply paint_null).
    apply Hpaint. intros i. apply drawLine_size.
  - exact Hinv.
  - unfold changeDrawMode. destruct (String.eqb text "Point"); [exact Hinv|].
    destruct (String.eqb text "Line"); exact Hinv.
  - unfold changeBrushJoin.
    destruct (String.eqb text "Round" && checked),
             (String.eqb text "Miter" && checked),
             (String.eqb text "Bevel" && checked); exact Hinv.
  - unfold changeBrushCap.
    destruct (String.eqb text "Square" && checked),
             (String.eqb text "Flat" && checked),
             (String.eqb text "Round" && checked); exact Hinv.
  - unfold changeBrushStyle.
    destruct (String.eqb text " Solid" && checked),
             (String.eqb text " Dash" && checked),
             (String.eqb text " Dot" && checked); exact Hinv.
  - exact Hinv.
  - destruct col; exact Hinv.
  - unfold Window_open. destruct (String.eqb filePath EmptyString); [exact Hinv|].
    destruct file; cbn; [|exact Hinv].
    rewrite deref_app_new. apply scaled_size.
  - unfold Window_undo, undoSnapshot. cbn. destruct (negb _); cbn.
    + rewrite deref_app_new. apply scaled_size.
    + rewrite deref_alter by (right; apply fill_null).
      rewrite deref_app_new. apply blank_size.
  - unfold Window_clear. cbn.
    rewrite deref_alter by (right; apply fill_null). exact Hinv.
Qed.

(** With an engine that resamples to the size it is asked for and paints
    without changing the size of an image, the live image of every state
    reached from a new drawing area is empty or has the size of the
    widget. *)
Theorem canvas_has_widget_size (w h : Z) (events : list Event) :
  let s := run events (DrawingArea_init w h) in
  Qt.width (live s) = 0 \/
  (Qt.width (live s) = width s /\ Qt.height (live s) = height s).
Proof.
  cbv zeta.
  assert (Hinit : Qt.width (live (DrawingArea_init w h)) = 0 \/
            (Qt.width (live (DrawingArea_init w h)) = width (DrawingArea_init w h) /\
             Qt.height (live (DrawingArea_init w h)) = height (DrawingArea_init w h)))
    by apply blank_size.
  revert Hinit. generalize (DrawingArea_init w h).
  induction events as [|e rest IH]; intros s Hinv; [exact Hinv|].
  cbn [run]. apply IH. now apply canvas_size_step.
Qed.

End Lawful.

(** *** The first undo of a session *)

(** As long as nothing is undone, [savedImage] stays on the empty image
    that [__init__] made, and the live image is another object. *)
Lemma no_undo_step (e : Event) (s : DrawingArea) :
  isUndo e = false ->
  savedImage s = 1%nat /\ deref (store s) 1 = Qt.QImage_null /\
  image s <> 1%nat /\ (1 < length (store s))%nat ->
  savedImage (step e s) = 1%nat /\
  deref (store (step e s)) 1 = Qt.QImage_null /\
  image (step e s) <> 1%nat /\ (1 < length (store (step e s)))%nat.
Proof.
  intros He (Hsv & Hnull & Hi & Hlen). open_state s. cbn in *. subst sv.
  destruct e; try discriminate; cbn.
  - rewrite length_app, deref_app_old by lia. cbn. repeat split; auto; lia.
  - unfold Window_resizeEvent. destruct (negb _); cbn; [|auto].
    rewrite length_app, deref_app_old by lia. cbn. repeat split; auto; lia.
  - unfold mousePressEvent. destruct (py_eq _ _); [|cbn; auto].
    destruct dm; cbn.
    + rewrite length_alter, deref_alter_ne by auto. auto.
    + destruct (Qt.QPoint_eqb _ _); cbn; [auto|].
      rewrite length_alter, deref_alter_ne by auto. auto.
  - unfold mouseMoveEvent. destruct (moveCondition _ _); cbn; [|auto].
    rewrite length_alter, deref_alter_ne by auto. auto.
  - auto.
  - unfold changeDrawMode. destruct (String.eqb text "Point"); [cbn; auto|].
    destruct (String.eqb text "Line"); cbn; auto.
  - unfold changeBrushJoin.
    destruct (String.eqb text "Round" && checked),
             (String.eqb text "Miter" && checked),
             (String.eqb text "Bevel" && checked); cbn; auto.
  - unfold changeBrushCap.
    destruct (String.eqb text "Square" && checked),
             (String.eqb text "Flat" && checked),
             (String.eqb text "Round" && checked); cbn; auto.
  - unfold changeBrushStyle.
    destruct (String.eqb text " Solid" && checked),
             (String.eqb text " Dash" && checked),
             (String.eqb text " Dot" && checked); cbn; auto.
  - auto.
  - destruct col; cbn; auto.
  - unfold Window_open. destruct (String.eqb filePath EmptyString); [cbn; auto|].
    destruct file; cbn; [|auto].
    rewrite length_app, length_alter.
    rewrite deref_app_old by (rewrite length_alter; lia).
    rewrite deref_alter_ne by auto. cbn. repeat split; auto; lia.
  - unfold Window_clear. cbn.
    rewrite length_alter, deref_alter_ne by auto. auto.
Qed.

(** The undo snapshot is assigned by undo alone: whatever was drawn,
    opened, resized or cleared before it, the first undo of a session
    shows a white image of the widget's size. *)
Theorem first_undo_blanks_canvas (w h : Z) (events : list Event) :
  forallb (fun e => negb (isUndo e)) events = true ->
  let s := run events (DrawingArea_init w h) in
  undoSnapshot s = Qt.QImage_null /\
  live (Window_undo s) =
    Qt.fill Qt.white (Qt.QImage_new (width s) (height s)).
Proof.
  intros Hall s.
  assert (Hinv : savedImage s = 1%nat /\ deref (store s) 1 = Qt.QImage_null /\
                 image s <> 1%nat /\ (1 < length (store s))%nat).
  { subst s.
    assert (Hinit : savedImage (DrawingArea_init w h) = 1%nat /\
              deref (store (DrawingArea_init w h)) 1 = Qt.QImage_null /\
              image (DrawingArea_init w h) <> 1%nat /\
              (1 < length (store (DrawingArea_init w h)))%nat).
    { cbn. repeat split; auto; lia. }
    revert Hinit. generalize (DrawingArea_init w h).
    induction events as [|e rest IH]; intros s Hinv; [exact Hinv|].
    cbn in Hall. apply andb_true_iff in Hall as [He Hrest]. cbn [run].
    apply IH; [exact Hrest|]. apply no_undo_step; [|exact Hinv].
    now apply negb_true_iff. }
  destruct Hinv as (Hsv & Hnull & _).
  assert (Hsnap : undoSnapshot s = Qt.QImage_null).
  { unfold undoSnapshot. now rewrite Hsv. }
  split; [exact Hsnap|]. rewrite undo_live, Hsnap. reflexivity.
Qed.

End Further.

(** ** More sessions, computed *)

Section FurtherSessions.

Import Simple.
Local Existing Instance Simple.engine.

(** A press of the right button on the fresh canvas. *)
Lemma press_other_button_ignored_witness :
  button (mkQMouseEvent Qt.RightButton 2 (Qt.mkQPoint 1 1)) <> Qt.LeftButton /\
  mousePressEvent (mkQMouseEvent Qt.RightButton 2 (Qt.mkQPoint 1 1))
    Session.canvas = Session.canvas.
Proof.
  assert (Hb : button (mkQMouseEvent Qt.RightButton 2 (Qt.mkQPoint 1 1))
               <> Qt.LeftButton) by discriminate.
  exact (conj Hb (press_other_button_ignored _ Session.canvas Hb)).
Defined.

(** A move with the left button held while a Line anchor is pending. *)
Lemma move_draws_only_in_stroke_witness :
  drawMode Session.anchored = Line /\
  mouseMoveEvent (leftAt 0 0) Session.anchored = Session.anchored.
Proof.
  assert (Hm : drawMode Session.anchored = Line) by (vm_compute; reflexivity).
  exact (conj Hm
           (proj2 (move_draws_only_in_stroke (leftAt 0 0) Session.anchored)
              (or_intror (or_intror Hm)))).
Defined.

(** A stroke along the diagonal of the 3 by 3 canvas. *)
Lemma freehand_stroke_chains_segments_witness :
  button (leftAt 0 0) = Qt.LeftButton /\
  drawMode (DrawingArea_init 3 3) = Point /\
  Forall (fun e => leftHeld e = true) [leftAt 1 1; leftAt 2 2] /\
  Qt.pixels
    (live (run (MousePress (leftAt 0 0) :: map MouseMove [leftAt 1 1; leftAt 2 2])
               (DrawingArea_init 3 3)))
  = [Qt.black; Qt.white; Qt.white;
     Qt.white; Qt.black; Qt.white;
     Qt.white; Qt.white; Qt.black] /\
  lastPoint
    (run (MousePress (leftAt 0 0) :: map MouseMove [leftAt 1 1; leftAt 2 2])
         (DrawingArea_init 3 3)) = Qt.mkQPoint 2 2.
Proof.
  assert (Hb : button (leftAt 0 0) = Qt.LeftButton) by reflexivity.
  assert (Hm : drawMode (DrawingArea_init 3 3) = Point) by reflexivity.
  assert (Hall : Forall (fun e => leftHeld e = true) [leftAt 1 1; leftAt 2 2])
    by (repeat constructor).
  destruct (freehand_stroke_chains_segments (leftAt 0 0)
              [leftAt 1 1; leftAt 2 2] (DrawingArea_init 3 3) Hb Hm Hall)
    as (Hlive & Hanchor & _).
  refine (conj Hb (conj Hm (conj Hall (conj _ _)))).
  - rewrite Hlive. vm_compute. reflexivity.
  - rewrite Hanchor. vm_compute. reflexivity.
Defined.

(** The flag after a click, its release, a change of mode, a clear and an
    undo. *)
Lemma drawing_flag_never_cleared_witness :
  button (leftAt 0 0) = Qt.LeftButton /\
  drawMode (DrawingArea_init 3 3) = Point /\
  drawing
    (run (MousePress (leftAt 0 0) ::
          [MouseRelease (leftUp 0 0); ChangeDrawMode "Line"; Clear; Undo])
         (DrawingArea_init 3 3)) = true.
Proof.
  assert (Hb : button (leftAt 0 0) = Qt.LeftButton) by reflexivity.
  assert (Hm : drawMode (DrawingArea_init 3 3) = Point) by reflexivity.
  exact (conj Hb (conj Hm
           (drawing_flag_never_cleared (leftAt 0 0)
              [MouseRelease (leftUp 0 0); ChangeDrawMode "Line"; Clear; Undo]
              (DrawingArea_init 3 3) Hb Hm))).
Defined.

(** Two presses in Line mode on a canvas 8 pixels wide. *)
Lemma line_mode_two_presses_witness :
  button (leftAt 1 0) = Qt.LeftButton /\
  button (leftAt 5 0) = Qt.LeftButton /\
  drawMode (changeDrawMode "Line" (DrawingArea_init 8 1)) = Line /\
  lastPoint (changeDrawMode "Line" (DrawingArea_init 8 1)) = Qt.QPoint_null /\
  pos (leftAt 1 0) <> Qt.QPoint_null /\
  strokeState
    (run [MousePress (leftAt 1 0); MousePress (leftAt 5 0)]
         (changeDrawMode "Line" (DrawingArea_init 8 1))) = Idle.
Proof.
  assert (Hb1 : button (leftAt 1 0) = Qt.LeftButton) by reflexivity.
  assert (Hb2 : button (leftAt 5 0) = Qt.LeftButton) by reflexivity.
  assert (Hm : drawMode (changeDrawMode "Line" (DrawingArea_init 8 1)) = Line)
    by reflexivity.
  assert (Hl : lastPoint (changeDrawMode "Line" (DrawingArea_init 8 1))
               = Qt.QPoint_null) by reflexivity.
  assert (Hp : pos (leftAt 1 0) <> Qt.QPoint_null) by discriminate.
  destruct (line_mode_two_presses (leftAt 1 0) (leftAt 5 0)
              (changeDrawMode "Line" (DrawingArea_init 8 1)) Hb1 Hb2 Hm Hl Hp)
    as (_ & _ & _ & _ & Hidle).
  exact (conj Hb1 (conj Hb2 (conj Hm (conj Hl (conj Hp Hidle))))).
Defined.

(** A cancelled open between the two strokes, and an open of a file that
    cannot be read after stroke A. *)
Lemma open_without_file_changes_nothing_witness :
  "picture.png"%string <> EmptyString /\
  run (Session.strokeA ++ Open EmptyString (Some picture) :: Session.strokeB)
      Session.canvas
  = run (Session.strokeA ++ Session.strokeB) Session.canvas /\
  Window_open "picture.png" None Session.afterA
  = (Raised "OSError", Session.afterA).
Proof.
  assert (Hne : "picture.png"%string <> EmptyString) by discriminate.
  destruct (open_without_file_changes_nothing EmptyString (Some picture)
              Session.strokeA Session.strokeB Session.canvas)
    as (Hcancel & _).
  destruct (Hcancel eq_refl) as (_ & Hrun).
  destruct (open_without_file_changes_nothing "picture.png" None [] []
              Session.afterA) as (_ & Hraise).
  exact (conj Hne (conj Hrun (Hraise Hne))).
Defined.

(** The slider is moved to 5 after stroke A. *)
Lemma brush_settings_leave_canvas_witness :
  isBrush (SizeSliderChange 5) = true /\
  store (step (SizeSliderChange 5) Session.afterA) = store Session.afterA.
Proof.
  assert (He : isBrush (SizeSliderChange 5) = true) by reflexivity.
  destruct (brush_settings_leave_canvas (SizeSliderChange 5) Session.afterA He)
    as (Hstore & _).
  exact (conj He Hstore).
Defined.

(** Stroke B on the canvas that a failed open has emptied. *)
Lemma null_canvas_takes_no_stroke_witness :
  Qt.isNull
    (live (snd (Window_open "picture.png" (Some garbage) Session.afterA)))
    = true /\
  forallb isMouse Session.strokeB = true /\
  live (run Session.strokeB
          (snd (Window_open "picture.png" (Some garbage) Session.afterA)))
  = Qt.QImage_null.
Proof.
  assert (Hnull : Qt.isNull
            (live (snd (Window_open "picture.png" (Some garbage) Session.afterA)))
            = true) by (vm_compute; reflexivity).
  assert (Hall : forallb isMouse Session.strokeB = true) by reflexivity.
  destruct (null_canvas_takes_no_stroke Session.strokeB
              (snd (Window_open "picture.png" (Some garbage) Session.afterA))
              Hnull Hall) as (Hlive & _).
  refine (conj Hnull (conj Hall _)).
  rewrite Hlive. vm_compute. reflexivity.
Defined.

(** The window is made twice as wide after stroke A, an undo and stroke
    B. *)
Lemma resize_without_open_scales_live_witness :
  forallb (fun e => negb (isOpen e)) Session.undoneEvents = true /\
  live (run [Resize 6 3; WindowResize]
          (run Session.undoneEvents (DrawingArea_init 3 3)))
  = Qt.scaled (live (run Session.undoneEvents (DrawingArea_init 3 3))) 6 3.
Proof.
  assert (Hall : forallb (fun e => negb (isOpen e)) Session.undoneEvents = true)
    by reflexivity.
  destruct (resize_without_open_scales_live 3 3 Session.undoneEvents 6 3 Hall)
    as (_ & Hlive).
  exact (conj Hall Hlive).
Defined.

(** Four undos in a row after stroke A, an undo and stroke B. *)
Lemma undo_even_times_restores_witness :
  Qt.width (live Session.undone) = width Session.undone /\
  Qt.height (live Session.undone) = height Session.undone /\
  0 < width Session.undone /\ 0 < height Session.undone /\
  live (Nat.iter (2 * 2) Window_undo Session.undone) = live Session.undone.
Proof.
  assert (Hw : Qt.width (live Session.undone) = width Session.undone)
    by (vm_compute; reflexivity).
  assert (Hh : Qt.height (live Session.undone) = height Session.undone)
    by (vm_compute; reflexivity).
  assert (Hwpos : 0 < width Session.undone) by (vm_compute; reflexivity).
  assert (Hhpos : 0 < height Session.undone) by (vm_compute; reflexivity).
  exact (conj Hw (conj Hh (conj Hwpos (conj Hhpos
           (undo_even_times_restores 2 Session.undone Hw Hh Hwpos Hhpos))))).
Defined.

(** A widget of 3 by 3 pixels, and one without width. *)
Lemma new_drawing_area_is_white_witness :
  0 < 3 /\
  length (Qt.pixels (live (DrawingArea_init 3 3))) = Z.to_nat (3 * 3) /\
  (0 <= 0 \/ 5 <= 0) /\
  live (DrawingArea_init 0 5) = Qt.QImage_null.
Proof.
  assert (Hpos : 0 < 3) by lia.
  assert (Hempty : 0 <= 0 \/ 5 <= 0) by (left; lia).
  destruct (new_drawing_area_is_white 3 3) as (Hwhite & _).
  destruct (Hwhite Hpos Hpos) as (_ & _ & Hlen & _).
  destruct (new_drawing_area_is_white 0 5) as (_ & Hnull & _).
  exact (conj Hpos (conj Hlen (conj Hempty (Hnull Hempty)))).
Defined.

(** The small engine resamples to the size it is asked for and paints
    without changing the size of the image. *)
Lemma simple_setPixel_size (c : Qt.QRgb) (p : Qt.QPoint) (img : Qt.QImage) :
  Qt.width (setPixel c p img) = Qt.width img /\
  Qt.height (setPixel c p img) = Qt.height img.
Proof.
  unfold setPixel. destruct (_ && _); auto.
Qed.

Lemma simple_drawLine_size (p : Qt.QPen) (a b : Qt.QPoint) (img : Qt.QImage) :
  Qt.width (drawLine p a b img) = Qt.width img /\
  Qt.height (drawLine p a b img) = Qt.height img.
Proof.
  unfold drawLine.
  generalize (seq 0 (S (Z.to_nat
    (Z.max 1 (Z.max (Z.abs (Qt.px b - Qt.px a)) (Z.abs (Qt.py b - Qt.py a))))))).
  intros steps. revert img.
  induction steps as [|k rest IH]; intros img; [auto|].
  cbn [fold_left]. destruct (IH (setPixel (Qt.pen_color p)
    (Qt.mkQPoint
       (Qt.px a + Z.of_nat k * (Qt.px b - Qt.px a) /
          Z.max 1 (Z.max (Z.abs (Qt.px b - Qt.px a)) (Z.abs (Qt.py b - Qt.py a))))
       (Qt.py a + Z.of_nat k * (Qt.py b - Qt.py a) /
          Z.max 1 (Z.max (Z.abs (Qt.px b - Qt.px a)) (Z.abs (Qt.py b - Qt.py a)))))
    img)) as [-> ->].
  apply simple_setPixel_size.
Qed.

(** The canvas after stroke A, an undo, stroke B and a resize to 6 by 3. *)
Lemma canvas_has_widget_size_witness :
  Qt.width (live (run (Session.undoneEvents ++ [Resize 6 3])
                      (DrawingArea_init 3 3))) = 6 /\
  (Qt.width (live (run (Session.undoneEvents ++ [Resize 6 3])
                       (DrawingArea_init 3 3))) = 0 \/
   Qt.width (live (run (Session.undoneEvents ++ [Resize 6 3])
                       (DrawingArea_init 3 3)))
   = width (run (Session.undoneEvents ++ [Resize 6 3]) (DrawingArea_init 3 3)) /\
   Qt.height (live (run (Session.undoneEvents ++ [Resize 6 3])
                        (DrawingArea_init 3 3)))
   = height (run (Session.undoneEvents ++ [Resize 6 3]) (DrawingArea_init 3 3))).
Proof.
  split; [vm_compute; reflexivity|].
  exact (canvas_has_widget_size
           (fun img w h => conj eq_refl eq_refl)
           (fun p pt img => simple_setPixel_size (Qt.pen_color p) pt img)
           simple_drawLine_size
           3 3 (Session.undoneEvents ++ [Resize 6 3])).
Defined.

(** Stroke A, an open of the picture and a clear, and then the first
    undo. *)
Lemma first_undo_blanks_canvas_witness :
  forallb (fun e => negb (isUndo e))
    (Session.strokeA ++ [Open "picture.png" (Some picture); Clear]) = true /\
  live (Window_undo
          (run (Session.strokeA ++ [Open "picture.png" (Some picture); Clear])
               (DrawingArea_init 3 3)))
  = Qt.fill Qt.white (Qt.QImage_new 3 3).
Proof.
  assert (Hall : forallb (fun e => negb (isUndo e))
            (Session.strokeA ++ [Open "picture.png" (Some picture); Clear])
            = true) by reflexivity.
  destruct (first_undo_blanks_canvas 3 3
              (Session.strokeA ++ [Open "picture.png" (Some picture); Clear])
              Hall) as (_ & Hlive).
  refine (conj Hall _). rewrite Hlive. vm_compute. reflexivity.
Defined.

End FurtherSessions.
